(** * Screenshot.py: the selection rectangle, its handles and the capture path

    A shallow embedding of [Screenshot.py].  Canvas coordinates are the
    whole numbers Tk reports for pointer events, so they are modelled in
    [Z]; Python's [//] on them is the floor division [Z.div].

    The script keeps its state in module globals and in the Tk canvas.
    Both are gathered in explicit records that every handler receives and
    returns. *)

From Stdlib Require Import ZArith List Bool Lia String.
Import ListNotations.
Open Scope Z_scope.

(** ** Handles and coordinates *)

(** The keys of the [resize_handles] dictionary. *)
Inductive Handle : Type :=
  | top_left | top_right | bottom_left | bottom_right
  | top_mid | bottom_mid | left_mid | right_mid.

Definition Handle_eqb (a b : Handle) : bool :=
  match a, b with
  | top_left, top_left | top_right, top_right
  | bottom_left, bottom_left | bottom_right, bottom_right
  | top_mid, top_mid | bottom_mid, bottom_mid
  | left_mid, left_mid | right_mid, right_mid => true
  | _, _ => false
  end.

Definition is_corner (h : Handle) : bool :=
  match h with
  | top_left | top_right | bottom_left | bottom_right => true
  | _ => false
  end.

(** What [canvas.coords(item)] returns: the list [[c0, c1, c2, c3]]. *)
Record Coords : Type := mkCoords { c0 : Z; c1 : Z; c2 : Z; c3 : Z }.

Definition Coords_eqb (a b : Coords) : bool :=
  (c0 a =? c0 b) && (c1 a =? c1 b) && (c2 a =? c2 b) && (c3 a =? c3 b).

Definition HANDLE_SIZE : Z := 10.
Definition DIALOG_WIDTH : Z := 490.
Definition DIALOG_HEIGHT : Z := 170.

(** [drag_data]: the grab offset and the two mode flags.  [resizing] is
    [None] or the name of the handle being pulled. *)
Record DragData : Type := mkDragData {
  dd_x : Z;
  dd_y : Z;
  dragging : bool;
  resizing : option Handle
}.

Definition drag_data_init : DragData := mkDragData 0 0 false None.

(** The canvas of one overlay: the coordinates of the [rectangle] item and
    the [resize_handles] dictionary, each name with the coordinates of its
    item.  A Python dictionary iterates in insertion order, which the hit
    test depends on, so the dictionary is an association list. *)
Record Canvas : Type := mkCanvas {
  rectangle : Coords;
  resize_handles : list (Handle * Coords)
}.

(** The order in which [create_overlay] inserts the handles. *)
Definition handle_order : list Handle :=
  [top_left; top_right; bottom_left; bottom_right;
   top_mid; bottom_mid; left_mid; right_mid].

(** Two ways a canvas may keep the four numbers given for a rectangle item.
    The script never orders them itself.  [keep_verbatim] returns them as
    given; [keep_sorted] puts the smaller of each pair first, which is what
    Tk's rectangle item does.  Statements below are made for either. *)
Definition keep_verbatim (c : Coords) : Coords := c.

Definition keep_sorted (c : Coords) : Coords :=
  mkCoords (Z.min (c0 c) (c2 c)) (Z.min (c1 c) (c3 c))
           (Z.max (c0 c) (c2 c)) (Z.max (c1 c) (c3 c)).

Section Controller.

(** What the canvas keeps when a rectangle item is given four numbers. *)
Variable keep : Coords -> Coords.

(** [canvas.coords(handles[h], ...)]: the item under name [h] gets new
    coordinates, the dictionary order is untouched.  The dictionary holds
    all eight names for as long as its overlay exists. *)
Fixpoint set_handle (h : Handle) (c : Coords) (hs : list (Handle * Coords))
  : list (Handle * Coords) :=
  match hs with
  | [] => []
  | (k, v) :: tl =>
      if Handle_eqb k h then (k, c) :: tl else (k, v) :: set_handle h c tl
  end.

(** [update_resize_handles]: eight assignments, in the order of the source. *)
Definition update_resize_handles (r : Coords) (hs : list (Handle * Coords))
  : list (Handle * Coords) :=
  let hs := set_handle top_left
    (mkCoords (c0 r - HANDLE_SIZE / 2) (c1 r - HANDLE_SIZE / 2)
              (c0 r + HANDLE_SIZE / 2) (c1 r + HANDLE_SIZE / 2)) hs in
  let hs := set_handle top_right
    (mkCoords (c2 r - HANDLE_SIZE / 2) (c1 r - HANDLE_SIZE / 2)
              (c2 r + HANDLE_SIZE / 2) (c1 r + HANDLE_SIZE / 2)) hs in
  let hs := set_handle bottom_left
    (mkCoords (c0 r - HANDLE_SIZE / 2) (c3 r - HANDLE_SIZE / 2)
              (c0 r + HANDLE_SIZE / 2) (c3 r + HANDLE_SIZE / 2)) hs in
  let hs := set_handle bottom_right
    (mkCoords (c2 r - HANDLE_SIZE / 2) (c3 r - HANDLE_SIZE / 2)
              (c2 r + HANDLE_SIZE / 2) (c3 r + HANDLE_SIZE / 2)) hs in
  let hs := set_handle top_mid
    (mkCoords (c0 r + (c2 r - c0 r) / 2 - HANDLE_SIZE / 2)
              (c1 r - HANDLE_SIZE / 2)
              (c0 r + (c2 r - c0 r) / 2 + HANDLE_SIZE / 2)
              (c1 r + HANDLE_SIZE / 2)) hs in
  let hs := set_handle bottom_mid
    (mkCoords (c0 r + (c2 r - c0 r) / 2 - HANDLE_SIZE / 2)
              (c3 r - HANDLE_SIZE / 2)
              (c0 r + (c2 r - c0 r) / 2 + HANDLE_SIZE / 2)
              (c3 r + HANDLE_SIZE / 2)) hs in
  let hs := set_handle left_mid
    (mkCoords (c0 r - HANDLE_SIZE / 2)
              (c1 r + (c3 r - c1 r) / 2 - HANDLE_SIZE / 2)
              (c0 r + HANDLE_SIZE / 2)
              (c1 r + (c3 r - c1 r) / 2 + HANDLE_SIZE / 2)) hs in
  set_handle right_mid
    (mkCoords (c2 r - HANDLE_SIZE / 2)
              (c1 r + (c3 r - c1 r) / 2 - HANDLE_SIZE / 2)
              (c2 r + HANDLE_SIZE / 2)
              (c1 r + (c3 r - c1 r) / 2 + HANDLE_SIZE / 2)) hs.

(** The test of [start_drag] on one handle:
    [coords[0] <= x <= coords[2] and coords[1] <= y <= coords[3]]. *)
Definition in_box (x y : Z) (c : Coords) : bool :=
  (c0 c <=? x) && (x <=? c2 c) && (c1 c <=? y) && (y <=? c3 c).

(** The [for ... break] loop of [start_drag] over [handle_coords.items()]:
    the first name, in dictionary order, whose box holds the point. *)
Fixpoint hit_test (x y : Z) (hs : list (Handle * Coords)) : option Handle :=
  match hs with
  | [] => None
  | (h, c) :: tl => if in_box x y c then Some h else hit_test x y tl
  end.

(** [start_drag]: a handle hit sets [resizing]; the [else] of the loop
    sets [dragging] and the grab offset. *)
Definition start_drag (cv : Canvas) (d : DragData) (x y : Z) : DragData :=
  match hit_test x y (resize_handles cv) with
  | Some h => mkDragData (dd_x d) (dd_y d) (dragging d) (Some h)
  | None =>
      mkDragData (x - c0 (rectangle cv)) (y - c1 (rectangle cv))
                 true (resizing d)
  end.

(** The four numbers [drag] hands to [canvas.coords(rectangle, ...)] while
    resizing, one case per handle name. *)
Definition resize_coords (h : Handle) (r : Coords) (x y : Z) : Coords :=
  match h with
  | top_left     => mkCoords x y (c2 r) (c3 r)
  | top_right    => mkCoords (c0 r) y x (c3 r)
  | bottom_left  => mkCoords x (c1 r) (c2 r) y
  | bottom_right => mkCoords (c0 r) (c1 r) x y
  | top_mid      => mkCoords (c0 r) y (c2 r) (c3 r)
  | bottom_mid   => mkCoords (c0 r) (c1 r) (c2 r) y
  | left_mid     => mkCoords x (c1 r) (c2 r) (c3 r)
  | right_mid    => mkCoords (c0 r) (c1 r) x (c3 r)
  end.

(** The four numbers [drag] hands over while moving the body. *)
Definition move_coords (d : DragData) (r : Coords) (x y : Z) : Coords :=
  let new_x := x - dd_x d in
  let new_y := y - dd_y d in
  mkCoords new_x new_y (new_x + (c2 r - c0 r)) (new_y + (c3 r - c1 r)).

(** Writing the rectangle item, then [update_resize_handles], which reads
    the item back. *)
Definition put_rectangle (cv : Canvas) (c : Coords) : Canvas :=
  let r := keep c in
  mkCanvas r (update_resize_handles r (resize_handles cv)).

(** [drag]: [dragging] is tested first, then [resizing]. *)
Definition drag (cv : Canvas) (d : DragData) (x y : Z) : Canvas :=
  if dragging d then put_rectangle cv (move_coords d (rectangle cv) x y)
  else match resizing d with
       | Some h => put_rectangle cv (resize_coords h (rectangle cv) x y)
       | None => cv
       end.

(** [stop_drag] *)
Definition stop_drag (d : DragData) : DragData :=
  mkDragData (dd_x d) (dd_y d) false None.

End Controller.

(** ** Monitors, persisted configuration and dialog options *)

(** A [screeninfo] monitor. *)
Record Monitor : Type := mkMonitor {
  m_x : Z; m_y : Z; m_width : Z; m_height : Z
}.

(** The ["rectangle"] object of the configuration file.  Each key is read
    with [.get(key, default)], so each may be absent. *)
Record RectConfig : Type := mkRectConfig {
  rc_x : option Z; rc_y : option Z;
  rc_width : option Z; rc_height : option Z
}.

(** The ["dialog"] object, which is also the set of variables behind the
    check boxes of one dialog. *)
Record Options : Type := mkOptions {
  capture_pointer : bool;
  save_clipboard : bool;
  save_folder : bool;
  folder_path : string;
  delay_screenshot : bool
}.

Record Config : Type := mkConfig {
  cfg_rectangle : option RectConfig;
  cfg_dialog : option Options
}.

(** ** Windows, images and sinks *)

Definition WinId : Type := nat.

(** The overlay [Toplevel] with the geometry string it was given:
    [f"{total_width}x{total_height}+{min_x}+{min_y}"]. *)
Record Overlay : Type := mkOverlay {
  ov_id : WinId;
  ov_width : Z; ov_height : Z;
  ov_x : Z; ov_y : Z
}.

(** The result of [ImageGrab.grab(bbox=..., all_screens=True)], with the
    place of the arrow when [draw_mouse_pointer] was called on it. *)
Record Image : Type := mkImage {
  bbox : Coords;
  arrow : option (Z * Z)
}.

(** A started [threading.Timer(5, take_screenshot)].  The closure holds the
    [rect_coords] read by [on_save] and the variables of the dialog whose
    Save button was pressed. *)
Record Timer : Type := mkTimer {
  t_rect : Coords;
  t_dialog : WinId
}.

(** ** The state *)

(** The module globals of the script. *)
Record Globals : Type := mkGlobals {
  overlay_window : option Overlay;
  canvas : option Canvas;
  canvas_offset_x : Z;
  drag_data : DragData;
  dialog : option WinId;
  RECTANGLE_DEFAULT_WIDTH : Z;
  RECTANGLE_DEFAULT_HEIGHT : Z;
  screenshot_folder : string
}.

(** What lies outside the interpreter: the windows Tk still has, the
    variables of every dialog made so far, the configuration file, the
    timers that have not fired, the grabs made, the clipboard and the disk. *)
Record Outside : Type := mkOutside {
  toplevels : list WinId;
  next_id : WinId;
  dialog_vars : list (WinId * Options);
  config_file : option Config;
  config_writable : bool;
  timers : list Timer;
  grabs : list Image;
  clipboard_busy : bool;
  clipboard : option Image;
  folders : list string;
  files : list (string * string * Image)
}.

Record World : Type := mkWorld { globals : Globals; outside : Outside }.

(** Field updates. *)
Definition with_overlay (o : option Overlay) (c : option Canvas) (g : Globals) :=
  mkGlobals o c (canvas_offset_x g) (drag_data g) (dialog g)
            (RECTANGLE_DEFAULT_WIDTH g) (RECTANGLE_DEFAULT_HEIGHT g)
            (screenshot_folder g).
Definition with_offset (off : Z) (g : Globals) :=
  mkGlobals (overlay_window g) (canvas g) off (drag_data g) (dialog g)
            (RECTANGLE_DEFAULT_WIDTH g) (RECTANGLE_DEFAULT_HEIGHT g)
            (screenshot_folder g).
Definition with_drag_data (d : DragData) (g : Globals) :=
  mkGlobals (overlay_window g) (canvas g) (canvas_offset_x g) d (dialog g)
            (RECTANGLE_DEFAULT_WIDTH g) (RECTANGLE_DEFAULT_HEIGHT g)
            (screenshot_folder g).
Definition with_dialog (d : option WinId) (g : Globals) :=
  mkGlobals (overlay_window g) (canvas g) (canvas_offset_x g) (drag_data g) d
            (RECTANGLE_DEFAULT_WIDTH g) (RECTANGLE_DEFAULT_HEIGHT g)
            (screenshot_folder g).
Definition with_default_size (w h : Z) (g : Globals) :=
  mkGlobals (overlay_window g) (canvas g) (canvas_offset_x g) (drag_data g)
            (dialog g) w h (screenshot_folder g).

Definition with_toplevels (l : list WinId) (o : Outside) :=
  mkOutside l (next_id o) (dialog_vars o) (config_file o) (config_writable o)
            (timers o) (grabs o) (clipboard_busy o) (clipboard o)
            (folders o) (files o).
Definition with_new_window (o : Outside) :=
  mkOutside (next_id o :: toplevels o) (S (next_id o)) (dialog_vars o)
            (config_file o) (config_writable o) (timers o) (grabs o)
            (clipboard_busy o) (clipboard o) (folders o) (files o).
Definition with_dialog_vars (l : list (WinId * Options)) (o : Outside) :=
  mkOutside (toplevels o) (next_id o) l (config_file o) (config_writable o)
            (timers o) (grabs o) (clipboard_busy o) (clipboard o)
            (folders o) (files o).
Definition with_config_file (c : option Config) (o : Outside) :=
  mkOutside (toplevels o) (next_id o) (dialog_vars o) c (config_writable o)
            (timers o) (grabs o) (clipboard_busy o) (clipboard o)
            (folders o) (files o).
Definition with_timers (l : list Timer) (o : Outside) :=
  mkOutside (toplevels o) (next_id o) (dialog_vars o) (config_file o)
            (config_writable o) l (grabs o) (clipboard_busy o) (clipboard o)
            (folders o) (files o).
Definition with_grabs (l : list Image) (o : Outside) :=
  mkOutside (toplevels o) (next_id o) (dialog_vars o) (config_file o)
            (config_writable o) (timers o) l (clipboard_busy o) (clipboard o)
            (folders o) (files o).
Definition with_clipboard (c : option Image) (o : Outside) :=
  mkOutside (toplevels o) (next_id o) (dialog_vars o) (config_file o)
            (config_writable o) (timers o) (grabs o) (clipboard_busy o) c
            (folders o) (files o).
Definition with_files (l : list (string * string * Image)) (o : Outside) :=
  mkOutside (toplevels o) (next_id o) (dialog_vars o) (config_file o)
            (config_writable o) (timers o) (grabs o) (clipboard_busy o)
            (clipboard o) (folders o) l.

(** ** Handlers that may raise

    A handler maps a world to a world and either a value or [None] when a
    Python exception left it; what it had changed by then stays changed. *)
Definition M (A : Type) : Type := World -> option A * World.

Definition ret {A} (a : A) : M A := fun w => (Some a, w).
Definition raise {A} : M A := fun w => (None, w).
Definition bind {A B} (m : M A) (k : A -> M B) : M B :=
  fun w => match m w with
           | (Some a, w') => k a w'
           | (None, w') => (None, w')
           end.
Definition get_globals : M Globals := fun w => (Some (globals w), w).
Definition get_outside : M Outside := fun w => (Some (outside w), w).
Definition on_globals (f : Globals -> Globals) : M unit :=
  fun w => (Some tt, mkWorld (f (globals w)) (outside w)).
Definition on_outside (f : Outside -> Outside) : M unit :=
  fun w => (Some tt, mkWorld (globals w) (f (outside w))).

Declare Scope py_scope.
Delimit Scope py_scope with py.
Notation "x <- m ;; k" := (bind m (fun x => k))
  (at level 61, m at next level, right associativity) : py_scope.
Notation "m ;; k" := (bind m (fun _ => k))
  (at level 61, right associativity) : py_scope.

Section Session.

Open Scope py_scope.

(** What the canvas keeps when a rectangle item is given four numbers. *)
Variable keep : Coords -> Coords.

(** *** Small helpers for Python built-ins *)

(** [min(...)] and [max(...)] over a generator: [None] stands for the
    [ValueError] on an empty sequence. *)
Definition py_min (l : list Z) : option Z :=
  match l with
  | [] => None
  | a :: tl => Some (fold_left Z.min tl a)
  end.

Definition py_max (l : list Z) : option Z :=
  match l with
  | [] => None
  | a :: tl => Some (fold_left Z.max tl a)
  end.

Definition or_raise {A} (o : option A) : M A :=
  match o with
  | Some a => ret a
  | None => raise
  end.

(** [d.get(key, default)] *)
Definition dict_get {A} (o : option A) (default : A) : A :=
  match o with
  | Some a => a
  | None => default
  end.

Fixpoint vars_lookup (d : WinId) (l : list (WinId * Options)) : option Options :=
  match l with
  | [] => None
  | (k, v) :: tl => if Nat.eqb k d then Some v else vars_lookup d tl
  end.

Definition alive (d : WinId) (o : Outside) : bool :=
  existsb (Nat.eqb d) (toplevels o).

(** [window.destroy()]: Tk forgets the window; destroying a window that is
    already gone changes nothing. *)
Definition tk_destroy (d : WinId) : M unit :=
  on_outside (fun o =>
    with_toplevels (filter (fun k => negb (Nat.eqb k d)) (toplevels o)) o).

(** [window.withdraw()]: a [TclError] when the window no longer exists. *)
Definition tk_withdraw (d : WinId) : M unit :=
  o <- get_outside ;;
  if alive d o then ret tt else raise.

(** *** Configuration file *)

Definition default_config (g : Globals) : Config :=
  mkConfig (Some (mkRectConfig (Some 0) (Some 0) (Some 0) (Some 0)))
           (Some (mkOptions false true false (screenshot_folder g) false)).

(** [load_config]: the file's content, or the defaults when the file is
    missing or unreadable ([config_file = None]). *)
Definition load_config (w : World) : Config :=
  match config_file (outside w) with
  | Some c => c
  | None => default_config (globals w)
  end.

(** [save_config]: a failed write is printed and otherwise ignored. *)
Definition save_config (c : Config) : M unit :=
  on_outside (fun o =>
    if config_writable o then with_config_file (Some c) o else o).

Definition load_rectangle_config (w : World) : Z * Z * Z * Z :=
  let rc := dict_get (cfg_rectangle (load_config w))
                     (mkRectConfig None None None None) in
  (dict_get (rc_x rc) 0,
   dict_get (rc_y rc) 0,
   dict_get (rc_width rc) (RECTANGLE_DEFAULT_WIDTH (globals w)),
   dict_get (rc_height rc) (RECTANGLE_DEFAULT_HEIGHT (globals w))).

(** *** Overlay *)

Definition destroy_overlay : M unit :=
  g <- get_globals ;;
  match overlay_window g with
  | Some ov => tk_destroy (ov_id ov)
  | None => ret tt
  end ;;
  on_globals (with_overlay None None).

(** The monitor test of the [for] loop in [create_overlay]. *)
Definition monitor_has (mouse_x mouse_y : Z) (m : Monitor) : bool :=
  (m_x m <=? mouse_x) && (mouse_x <? m_x m + m_width m) &&
  (m_y m <=? mouse_y) && (mouse_y <? m_y m + m_height m).

(** The monitor under the pointer, else [monitors[0]]. *)
Definition current_monitor (mouse_x mouse_y : Z) (monitors : list Monitor)
  : option Monitor :=
  match find (monitor_has mouse_x mouse_y) monitors with
  | Some m => Some m
  | None => hd_error monitors
  end.

(** The condition under [if not (...)] in "Validate rectangle configuration". *)
Definition rect_config_valid (m : Monitor) (off rect_x rect_y W H : Z) : bool :=
  (m_x m <=? rect_x - off) && (rect_x - off <? m_x m + m_width m) &&
  (m_y m <=? rect_y) && (rect_y <? m_y m + m_height m) &&
  (m_x m <=? rect_x + W - off) && (rect_x + W - off <? m_x m + m_width m) &&
  (m_y m <=? rect_y + H) && (rect_y + H <? m_y m + m_height m).

(** The values of [rect_x, rect_y, RECTANGLE_DEFAULT_WIDTH,
    RECTANGLE_DEFAULT_HEIGHT] after the validation step. *)
Definition initial_geometry (m : Monitor) (off : Z) (loaded : Z * Z * Z * Z)
  : Z * Z * Z * Z :=
  let '(rect_x, rect_y, W, H) := loaded in
  if negb (rect_config_valid m off rect_x rect_y W H) then
    let W := m_width m / 2 in
    let H := m_height m / 2 in
    (m_x m + m_width m / 2 - W / 2 + off,
     m_y m + m_height m / 2 - H / 2,
     W, H)
  else (rect_x, rect_y, W, H).

(** The eight [canvas.create_rectangle] calls that fill [resize_handles],
    in the order of the source.  Every handle item is given its smaller
    corner first. *)
Definition initial_handles (rect_x rect_y W H : Z) : list (Handle * Coords) :=
  [ (top_left,
     mkCoords (rect_x - HANDLE_SIZE / 2) (rect_y - HANDLE_SIZE / 2)
              (rect_x + HANDLE_SIZE / 2) (rect_y + HANDLE_SIZE / 2));
    (top_right,
     mkCoords (rect_x + W - HANDLE_SIZE / 2) (rect_y - HANDLE_SIZE / 2)
              (rect_x + W + HANDLE_SIZE / 2) (rect_y + HANDLE_SIZE / 2));
    (bottom_left,
     mkCoords (rect_x - HANDLE_SIZE / 2) (rect_y + H - HANDLE_SIZE / 2)
              (rect_x + HANDLE_SIZE / 2) (rect_y + H + HANDLE_SIZE / 2));
    (bottom_right,
     mkCoords (rect_x + W - HANDLE_SIZE / 2) (rect_y + H - HANDLE_SIZE / 2)
              (rect_x + W + HANDLE_SIZE / 2) (rect_y + H + HANDLE_SIZE / 2));
    (top_mid,
     mkCoords (rect_x + W / 2 - HANDLE_SIZE / 2) (rect_y - HANDLE_SIZE / 2)
              (rect_x + W / 2 + HANDLE_SIZE / 2) (rect_y + HANDLE_SIZE / 2));
    (bottom_mid,
     mkCoords (rect_x + W / 2 - HANDLE_SIZE / 2) (rect_y + H - HANDLE_SIZE / 2)
              (rect_x + W / 2 + HANDLE_SIZE / 2) (rect_y + H + HANDLE_SIZE / 2));
    (left_mid,
     mkCoords (rect_x - HANDLE_SIZE / 2) (rect_y + H / 2 - HANDLE_SIZE / 2)
              (rect_x + HANDLE_SIZE / 2) (rect_y + H / 2 + HANDLE_SIZE / 2));
    (right_mid,
     mkCoords (rect_x + W - HANDLE_SIZE / 2) (rect_y + H / 2 - HANDLE_SIZE / 2)
              (rect_x + W + HANDLE_SIZE / 2) (rect_y + H / 2 + HANDLE_SIZE / 2)) ].

(** [show_dialog]: a new [Toplevel] becomes the global [dialog]; its check
    boxes start from the ["dialog"] object of the configuration.  Where
    the window is placed plays no part in what follows and is left out. *)
Definition show_dialog : M unit :=
  w <- (fun w => (Some w, w)) ;;
  let id := next_id (outside w) in
  let vars := dict_get (cfg_dialog (load_config w))
                (mkOptions false true false (screenshot_folder (globals w)) false) in
  on_outside with_new_window ;;
  on_globals (with_dialog (Some id)) ;;
  on_outside (fun o => with_dialog_vars ((id, vars) :: dialog_vars o) o).

(** [create_overlay], with the pointer position and the monitor list it
    reads from the system. *)
Definition create_overlay (mouse_x mouse_y : Z) (monitors : list Monitor)
  : M unit :=
  destroy_overlay ;;
  min_x <- or_raise (py_min (map m_x monitors)) ;;
  min_y <- or_raise (py_min (map m_y monitors)) ;;
  max_x <- or_raise (py_max (map (fun m => m_x m + m_width m) monitors)) ;;
  max_y <- or_raise (py_max (map (fun m => m_y m + m_height m) monitors)) ;;
  let total_width := max_x - min_x in
  let total_height := max_y - min_y in
  on_globals (fun g => if min_x <? 0 then with_offset (- min_x) g else g) ;;
  o <- get_outside ;;
  let ov := mkOverlay (next_id o) total_width total_height min_x min_y in
  on_outside with_new_window ;;
  m <- or_raise (current_monitor mouse_x mouse_y monitors) ;;
  w <- (fun w => (Some w, w)) ;;
  let '(rect_x, rect_y, W, H) :=
    initial_geometry m (canvas_offset_x (globals w)) (load_rectangle_config w) in
  on_globals (with_default_size W H) ;;
  on_globals (with_overlay (Some ov)
    (Some (mkCanvas (keep (mkCoords rect_x rect_y (rect_x + W) (rect_y + H)))
                    (initial_handles rect_x rect_y W H)))) ;;
  show_dialog.

(** *** Pointer events on the canvas items *)

Definition pointer_press (x y : Z) : M unit :=
  g <- get_globals ;;
  cv <- or_raise (canvas g) ;;
  on_globals (with_drag_data (start_drag cv (drag_data g) x y)).

Definition pointer_motion (x y : Z) : M unit :=
  g <- get_globals ;;
  cv <- or_raise (canvas g) ;;
  on_globals (with_overlay (overlay_window g)
                           (Some (drag keep cv (drag_data g) x y))).

Definition pointer_release : M unit :=
  on_globals (fun g => with_drag_data (stop_drag (drag_data g)) g).

(** *** Capture and sinks *)

(** [capture_screenshot(rect, capture_pointer)] with the cursor position
    [win32api.GetCursorPos()] would return.  The caller always passes the
    four coordinates of the rectangle item, so the [if rect:] branch is the
    one taken.  The grab is logged in [grabs]. *)
Definition capture_screenshot (rect : Coords) (pointer : bool)
    (mouse_x mouse_y : Z) : M Image :=
  g <- get_globals ;;
  match overlay_window g with
  | Some ov => tk_withdraw (ov_id ov)
  | None => ret tt
  end ;;
  match dialog g with
  | Some d => tk_withdraw d
  | None => ret tt
  end ;;
  let x1 := c0 rect - canvas_offset_x g in
  let x2 := c2 rect - canvas_offset_x g in
  let y1 := c1 rect in
  let y2 := c3 rect in
  let screenshot :=
    mkImage (mkCoords x1 y1 x2 y2)
      (if pointer && ((x1 <? mouse_x) && (mouse_x <? x2) &&
                      (y1 <? mouse_y) && (mouse_y <? y2))
       then Some (mouse_x - x1, mouse_y - y1) else None) in
  on_outside (fun o => with_grabs (screenshot :: grabs o) o) ;;
  ret screenshot.

(** The clipboard branch of [save_screenshot]: [OpenClipboard] raises when
    another process holds the clipboard. *)
Definition to_clipboard (screenshot : Image) : M unit :=
  o <- get_outside ;;
  if clipboard_busy o then raise
  else on_outside (with_clipboard (Some screenshot)).

(** The file branch: [screenshot.save(file_path)] raises when the folder
    does not exist.  A written file is recorded as folder, name, image. *)
Definition to_file (screenshot : Image) (folder timestamp : string) : M unit :=
  let filename := ("screenshot_" ++ timestamp ++ ".png")%string in
  o <- get_outside ;;
  if existsb (String.eqb folder) (folders o)
  then on_outside (fun o => with_files ((folder, filename, screenshot) :: files o) o)
  else raise.

(** [save_screenshot]: the two [if] blocks in the order of the source, with
    no handler around either. *)
Definition save_screenshot (screenshot : Image) (save_clipboard save_file : bool)
    (folder timestamp : string) : M unit :=
  (if save_clipboard then to_clipboard screenshot else ret tt) ;;
  (if save_file then to_file screenshot folder timestamp else ret tt).

(** *** The dialog's buttons and the timer *)

Definition vars_of (d : WinId) : M Options :=
  o <- get_outside ;;
  or_raise (vars_lookup d (dialog_vars o)).

(** [take_screenshot], the closure made by [on_save] of dialog [d] around
    [rect_coords].  [dialog.destroy()] at its end is on the global. *)
Definition take_screenshot (rect_coords : Coords) (d : WinId)
    (mouse_x mouse_y : Z) (timestamp : string) : M unit :=
  vars <- vars_of d ;;
  screenshot <- capture_screenshot rect_coords (capture_pointer vars)
                                   mouse_x mouse_y ;;
  save_screenshot screenshot (save_clipboard vars) (save_folder vars)
                  (folder_path vars) timestamp ;;
  destroy_overlay ;;
  g <- get_globals ;;
  dlg <- or_raise (dialog g) ;;
  tk_destroy dlg.

(** [on_save] of dialog [d].  [canvas.coords] on a [canvas] that is [None]
    raises.  With the delay box ticked a timer is started and nothing else
    happens until it fires. *)
Definition on_save (d : WinId) (mouse_x mouse_y : Z) (timestamp : string)
  : M unit :=
  g <- get_globals ;;
  cv <- or_raise (canvas g) ;;
  let rect_coords := rectangle cv in
  vars <- vars_of d ;;
  save_config
    (mkConfig
       (Some (mkRectConfig (Some (c0 rect_coords)) (Some (c1 rect_coords))
                           (Some (c2 rect_coords - c0 rect_coords))
                           (Some (c3 rect_coords - c1 rect_coords))))
       (Some vars)) ;;
  if delay_screenshot vars
  then on_outside (fun o => with_timers (mkTimer rect_coords d :: timers o) o)
  else take_screenshot rect_coords d mouse_x mouse_y timestamp.

Definition on_cancel : M unit :=
  destroy_overlay ;;
  g <- get_globals ;;
  dlg <- or_raise (dialog g) ;;
  tk_destroy dlg.

(** The timer thread after its five seconds: the timer leaves [timers] and
    its closure runs once; an exception ends the thread and goes nowhere. *)
Fixpoint remove_nth {A} (n : nat) (l : list A) : list A :=
  match n, l with
  | _, [] => []
  | O, _ :: tl => tl
  | S n', a :: tl => a :: remove_nth n' tl
  end.

Definition timer_fires (n : nat) (mouse_x mouse_y : Z) (timestamp : string)
  : M unit :=
  o <- get_outside ;;
  t <- or_raise (nth_error (timers o) n) ;;
  on_outside (fun o => with_timers (remove_nth n (timers o)) o) ;;
  fun w => (Some tt, snd (take_screenshot (t_rect t) (t_dialog t)
                                          mouse_x mouse_y timestamp w)).

(** *** Keyboard *)

(** [on_press] for [keyboard.Key.esc]; any other key does nothing.  Nothing
    in the [try] body raises, so the [except] branch is never entered. *)
Definition on_press (is_esc : bool) : M unit :=
  if is_esc then
    destroy_overlay ;;
    g <- get_globals ;;
    match dialog g with
    | Some d => tk_destroy d
    | None => ret tt
    end
  else ret tt.

Definition WM_KEYDOWN : Z := 0x0100.
Definition WM_SYSKEYDOWN : Z := 0x0104.
Definition VK_SNAPSHOT : Z := 0x2C.

(** [win32_event_filter].  A key that is not the trigger gives [True].  On
    the trigger, [create_overlay()] runs and then [listener.suppress_event()]
    is called; that call always raises, which is how the listener is told
    to swallow the key, so the [return False] after it is never reached. *)
Definition win32_event_filter (msg vkCode : Z) (mouse_x mouse_y : Z)
    (monitors : list Monitor) : M bool :=
  if ((msg =? WM_KEYDOWN) || (msg =? WM_SYSKEYDOWN)) && (vkCode =? VK_SNAPSHOT)
  then create_overlay mouse_x mouse_y monitors ;; raise
  else ret true.

End Session.

(** ** Where a canvas point is on the desktop

    The overlay window is placed at [+min_x+min_y] and the canvas fills it,
    so canvas point [(x, y)] shows desktop pixel [(x + ov_x, y + ov_y)]. *)
Definition on_desktop (ov : Overlay) (r : Coords) : Coords :=
  mkCoords (c0 r + ov_x ov) (c1 r + ov_y ov) (c2 r + ov_x ov) (c3 r + ov_y ov).

(** The world right after the script is loaded. *)
Definition start_world (desktop : string) (cfg : option Config) : World :=
  mkWorld
    (mkGlobals None None 0 drag_data_init None 900 600 desktop)
    (mkOutside [] 0%nat [] cfg true [] [] false None [desktop] []).

(** ** Predicates used in the statements *)

(** The invariant of a selection rectangle. *)
Definition well_formed (r : Coords) : Prop := c0 r < c2 r /\ c1 r < c3 r.

Definition width (r : Coords) : Z := c2 r - c0 r.
Definition height (r : Coords) : Z := c3 r - c1 r.

(** The pointer's coordinate differs from the coordinate of every edge
    that lies opposite to an edge the handle moves. *)
Definition off_opposite (h : Handle) (r : Coords) (x y : Z) : Prop :=
  match h with
  | top_left     => x <> c2 r /\ y <> c3 r
  | top_right    => x <> c0 r /\ y <> c3 r
  | bottom_left  => x <> c2 r /\ y <> c1 r
  | bottom_right => x <> c0 r /\ y <> c1 r
  | top_mid      => y <> c3 r
  | bottom_mid   => y <> c1 r
  | left_mid     => x <> c2 r
  | right_mid    => x <> c0 r
  end.

(** The edges a handle controls, as a table: on each axis the edge with the
    smaller coordinate, the one with the larger, or none.  Corner handles
    control one edge on each axis, midpoint handles one edge on one axis. *)
Inductive Edge : Type := low_edge | high_edge.

Definition x_edge (h : Handle) : option Edge :=
  match h with
  | top_left | bottom_left | left_mid => Some low_edge
  | top_right | bottom_right | right_mid => Some high_edge
  | top_mid | bottom_mid => None
  end.

Definition y_edge (h : Handle) : option Edge :=
  match h with
  | top_left | top_right | top_mid => Some low_edge
  | bottom_left | bottom_right | bottom_mid => Some high_edge
  | left_mid | right_mid => None
  end.

(** One axis of a rectangle [lo .. hi] after the controlled edge was set to
    the pointer's coordinate [p] and the two ends were put in order: the
    other end stays where it was, and nothing holds [p] back. *)
Definition axis_after (e : option Edge) (lo hi p : Z) : Z * Z :=
  match e with
  | Some low_edge => (Z.min p hi, Z.max p hi)
  | Some high_edge => (Z.min lo p, Z.max lo p)
  | None => (lo, hi)
  end.

(** A canvas keeps corners that are already in order as they are given.
    Both [keep_verbatim] and [keep_sorted] do. *)
Definition keeps_ordered (keep : Coords -> Coords) : Prop :=
  forall c, c0 c <= c2 c -> c1 c <= c3 c -> keep c = c.

(** The first entry of a dictionary whose box holds the point. *)
Definition first_hit (x y : Z) (hs : list (Handle * Coords)) (h : Handle) : Prop :=
  exists pre c post,
    hs = pre ++ (h, c) :: post /\
    in_box x y c = true /\
    forall p, In p pre -> in_box x y (snd p) = false.

(** ** What [create_overlay] leaves behind *)

(** [canvas_offset_x] after the [if min_x < 0:] assignment; it keeps its
    old value when no monitor starts left of zero. *)
Definition offset_after (monitors : list Monitor) (off : Z) : Z :=
  match py_min (map m_x monitors) with
  | Some min_x => if min_x <? 0 then - min_x else off
  | None => off
  end.

(** The rectangle item and the handle dictionary made from [rect_x],
    [rect_y] and the two sizes. *)
Definition canvas_of (keep : Coords -> Coords) (geometry : Z * Z * Z * Z)
  : Canvas :=
  let '(rect_x, rect_y, W, H) := geometry in
  mkCanvas (keep (mkCoords rect_x rect_y (rect_x + W) (rect_y + H)))
           (initial_handles rect_x rect_y W H).

Definition without (d : WinId) (l : list WinId) : list WinId :=
  filter (fun k => negb (Nat.eqb k d)) l.

(** A rectangle given in desktop coordinates has both corners in the
    half-open box of the monitor. *)
Definition corners_inside (m : Monitor) (s : Coords) : Prop :=
  m_x m <= c0 s < m_x m + m_width m /\
  m_y m <= c1 s < m_y m + m_height m /\
  m_x m <= c2 s < m_x m + m_width m /\
  m_y m <= c3 s < m_y m + m_height m.

(** A rectangle given in desktop coordinates is half as wide and half as
    high as the monitor (rounded down) and its middle is the monitor's
    middle, to within half a pixel on each axis. *)
Definition centred_on (m : Monitor) (s : Coords) : Prop :=
  c2 s - c0 s = m_width m / 2 /\
  c3 s - c1 s = m_height m / 2 /\
  Z.abs (c0 s + c2 s - (2 * m_x m + m_width m)) <= 1 /\
  Z.abs (c1 s + c3 s - (2 * m_y m + m_height m)) <= 1.

(** The script treats a canvas point [(x, y)] as desktop point
    [(x - canvas_offset_x, y)].  That is where the overlay shows it only
    when the topmost monitor starts at y = 0 and the x offset is the one of
    these monitors: set by this session because some monitor starts left of
    zero, or left over with the right value. *)
Definition offsets_agree (monitors : list Monitor) (off_before : Z) : Prop :=
  py_min (map m_y monitors) = Some 0 /\
  exists min_x,
    py_min (map m_x monitors) = Some min_x /\
    (min_x < 0 \/ off_before = - min_x).

(** The Print Screen key going down. *)
Definition print_screen (keep : Coords -> Coords) (mouse_x mouse_y : Z)
    (monitors : list Monitor) : M bool :=
  win32_event_filter keep WM_KEYDOWN VK_SNAPSHOT mouse_x mouse_y monitors.

(** ** Worlds used in the examples *)

Definition monitor_1280 : Monitor := mkMonitor 0 0 1280 800.

(** A configuration file as [on_save] writes it. *)
Definition persisted (x y W H : Z) (opts : option Options) : Config :=
  mkConfig (Some (mkRectConfig (Some x) (Some y) (Some W) (Some H))) opts.

(** The first Print Screen after the script was started. *)
Definition first_session (keep : Coords -> Coords) (cfg : Config)
    (mouse_x mouse_y : Z) (monitors : list Monitor) : World :=
  snd (print_screen keep mouse_x mouse_y monitors
         (start_world "Desktop" (Some cfg))).

(** A session on one 1280x800 monitor whose rectangle [{100,100,400,300}]
    was then pulled by its bottom right handle to [(700, 500)]. *)
Definition resized_session (keep : Coords -> Coords) : World :=
  let w := first_session keep (persisted 100 100 300 200 None) 10 10
                         [monitor_1280] in
  let w := snd (pointer_press 400 300 w) in
  let w := snd (pointer_motion keep 700 500 w) in
  snd (pointer_release w).

(** The rectangle [{100,100,500,400}] with its handles. *)
Definition canvas_400x300 : Canvas :=
  mkCanvas (mkCoords 100 100 500 400) (initial_handles 100 100 400 300).

(** A rectangle as wide as one handle: [{100,100,110,200}]. *)
Definition canvas_10x100 : Canvas :=
  mkCanvas (mkCoords 100 100 110 200) (initial_handles 100 100 10 100).

(** A body drag is under way when Escape closes the session; the next
    session then starts with a press on the bottom right handle.
    [drag_data] is a module global that neither [destroy_overlay] nor
    [create_overlay] resets. *)
Definition press_after_escaped_drag (keep : Coords -> Coords) : World :=
  let w := first_session keep (persisted 100 100 300 200 None) 10 10
                         [monitor_1280] in
  let w := snd (pointer_press 200 100 w) in
  let w := snd (on_press true w) in
  let w := snd (print_screen keep 10 10 [monitor_1280] w) in
  snd (pointer_press 400 300 w).

(** A second monitor above the first, and one to its left. *)
Definition monitors_stacked : list Monitor :=
  [mkMonitor 0 0 1920 1080; mkMonitor 0 (-1080) 1920 1080].

Definition monitors_left : list Monitor :=
  [mkMonitor 0 0 1920 1080; mkMonitor (-1920) 0 1920 1080].

Definition monitors_side_by_side : list Monitor :=
  [mkMonitor 0 0 1920 1080; mkMonitor 1920 0 1920 1080].

(** The region of the desktop the rectangle of an open session covers. *)
Definition shown_region (w : World) : option Coords :=
  match overlay_window (globals w), canvas (globals w) with
  | Some ov, Some cv => Some (on_desktop ov (rectangle cv))
  | _, _ => None
  end.

(** Save pressed with "Take screenshot after 5 seconds" ticked. *)
Definition delay_options : Options := mkOptions false true false "Desktop" true.

Definition armed_session : World :=
  let w := first_session keep_sorted
             (persisted 100 100 300 200 (Some delay_options)) 10 10
             [monitor_1280] in
  snd (on_save 1%nat 10 10 "20250203_120000" w).

(** A desktop folder that exists and a clipboard held by another process. *)
Definition clipboard_held : World :=
  mkWorld
    (mkGlobals None None 0 drag_data_init None 900 600 "Desktop")
    (mkOutside [] 0%nat [] None true [] [] true None ["Desktop"%string] []).

Definition picture : Image := mkImage (mkCoords 100 100 500 400) None.

(** What [take_screenshot] and the handlers around it never touch. *)
Definition same_settings (w w' : World) : Prop :=
  timers (outside w') = timers (outside w) /\
  config_file (outside w') = config_file (outside w) /\
  config_writable (outside w') = config_writable (outside w) /\
  dialog_vars (outside w') = dialog_vars (outside w) /\
  canvas_offset_x (globals w') = canvas_offset_x (globals w) /\
  RECTANGLE_DEFAULT_WIDTH (globals w') = RECTANGLE_DEFAULT_WIDTH (globals w) /\
  RECTANGLE_DEFAULT_HEIGHT (globals w') = RECTANGLE_DEFAULT_HEIGHT (globals w) /\
  screenshot_folder (globals w') = screenshot_folder (globals w).

Definition frames {A} (m : M A) : Prop :=
  forall w, same_settings w (snd (m w)).

(** ** Further parts of the script *)

(** [save_rectangle_config]: the file is read, its ["rectangle"] entry is
    replaced and the whole is written back. *)
Definition save_rectangle_config (x y W H : Z) : M unit :=
  fun w =>
    save_config
      (mkConfig (Some (mkRectConfig (Some x) (Some y) (Some W) (Some H)))
                (cfg_dialog (load_config w))) w.

(** The end of [create_overlay]: where the dialog is put, from [rect_x],
    [rect_y] and the height after the validation step. *)
Definition dialog_position (m : Monitor) (rect_x rect_y H : Z) : Z * Z :=
  let dialog_x := rect_x - m_width m / 2 - 100 in
  let dialog_y := rect_y + 20 + H in
  let dialog_x :=
    if dialog_x + DIALOG_WIDTH >? m_x m + m_width m
    then m_x m + m_width m - DIALOG_WIDTH else dialog_x in
  let dialog_y :=
    if dialog_y + DIALOG_HEIGHT >? m_y m + m_height m
    then m_y m + m_height m - DIALOG_HEIGHT else dialog_y in
  (dialog_x, dialog_y).

(** The square of side [HANDLE_SIZE] around a point. *)
Definition square_at (cx cy : Z) : Coords :=
  mkCoords (cx - 5) (cy - 5) (cx + 5) (cy + 5).

(** A rectangle moved by [(dx, dy)]. *)
Definition translate (r : Coords) (dx dy : Z) : Coords :=
  mkCoords (c0 r + dx) (c1 r + dy) (c2 r + dx) (c3 r + dy).

(** The global, if set, names a window Tk still has. *)
Definition window_usable (o : Outside) (win : option WinId) : Prop :=
  match win with
  | Some d => alive d o = true
  | None => True
  end.

(** ** Lemmas on the handle dictionary *)

Lemma keep_verbatim_ordered : keeps_ordered keep_verbatim.
Proof. intros c _ _. reflexivity. Qed.

Lemma keep_sorted_ordered : keeps_ordered keep_sorted.
Proof.
  intros [a b c d] Hx Hy. unfold keep_sorted. simpl in *.
  rewrite !Z.min_l, !Z.max_r by assumption. reflexivity.
Qed.


Lemma set_handle_keys h c hs : map fst (set_handle h c hs) = map fst hs.
Proof.
  induction hs as [| [k v] tl IH]; simpl; [reflexivity |].
  destruct (Handle_eqb k h); simpl; [reflexivity | now rewrite IH].
Qed.

Lemma update_resize_handles_keys r hs :
  map fst (update_resize_handles r hs) = map fst hs.
Proof. unfold update_resize_handles. now rewrite !set_handle_keys. Qed.

Lemma initial_handles_keys x y W H :
  map fst (initial_handles x y W H) = handle_order.
Proof. reflexivity. Qed.

(** A dictionary filled by [create_overlay] has its eight entries in the
    order of insertion. *)
Lemma keyed_handles (hs : list (Handle * Coords)) :
  map fst hs = handle_order ->
  exists a b c d e f g h,
    hs = [(top_left, a); (top_right, b); (bottom_left, c); (bottom_right, d);
          (top_mid, e); (bottom_mid, f); (left_mid, g); (right_mid, h)].
Proof.
  unfold handle_order. intros E.
  do 9 (destruct hs as [| [? ?] hs]; simpl in E; try discriminate E).
  injection E as -> -> -> -> -> -> -> ->.
  do 8 eexists. reflexivity.
Qed.

(** On such a dictionary [update_resize_handles] gives the same boxes as a
    fresh [create_overlay] on the same rectangle. *)
Lemma update_resize_handles_boxes r (hs : list (Handle * Coords)) :
  map fst hs = handle_order ->
  update_resize_handles r hs =
  initial_handles (c0 r) (c1 r) (c2 r - c0 r) (c3 r - c1 r).
Proof.
  intros E. destruct (keyed_handles hs E) as (a & b & c & d & e & f & g & h & ->).
  unfold update_resize_handles, initial_handles. simpl.
  repeat (f_equal; try lia).
Qed.

Lemma canvas_of_keys keep geometry :
  map fst (resize_handles (canvas_of keep geometry)) = handle_order.
Proof. destruct geometry as [[[x y] W] H]. reflexivity. Qed.

Lemma drag_keeps_keys keep cv d x y :
  map fst (resize_handles (drag keep cv d x y)) = map fst (resize_handles cv).
Proof.
  unfold drag, put_rectangle.
  destruct (dragging d); simpl; [apply update_resize_handles_keys |].
  destruct (resizing d); simpl; [apply update_resize_handles_keys | reflexivity].
Qed.

Lemma hit_test_first_hit x y hs :
  match hit_test x y hs with
  | Some h => first_hit x y hs h
  | None => forall p, In p hs -> in_box x y (snd p) = false
  end.
Proof.
  induction hs as [| [k c] tl IH]; simpl.
  - intros p [].
  - destruct (in_box x y c) eqn:Hc.
    + exists [], c, tl. repeat split; auto. intros p [].
    + destruct (hit_test x y tl) as [h |].
      * destruct IH as (pre & c' & post & -> & Hin & Hpre).
        exists ((k, c) :: pre), c', post. repeat split; auto.
        intros p [<- | Hp]; auto.
      * intros p [<- | Hp]; auto.
Qed.

Lemma hit_test_some_iff x y hs :
  (exists h, hit_test x y hs = Some h) <->
  (exists p, In p hs /\ in_box x y (snd p) = true).
Proof.
  induction hs as [| [k c] tl IH]; simpl.
  - split; [intros [h Hh]; discriminate | intros (p & [] & _)].
  - destruct (in_box x y c) eqn:Hc.
    + split; [intros _; exists (k, c); auto | intros _; eauto].
    + rewrite IH. split.
      * intros (p & Hp & Hb). exists p; auto.
      * intros (p & [<- | Hp] & Hb); [simpl in Hb; congruence | eauto].
Qed.

Lemma first_hit_hit_test x y hs h :
  first_hit x y hs h -> hit_test x y hs = Some h.
Proof.
  intros (pre & c & post & -> & Hc & Hpre).
  induction pre as [| [k b] pre IH]; simpl.
  - now rewrite Hc.
  - pose proof (Hpre (k, b) (or_introl eq_refl)) as Hkb. simpl in Hkb.
    rewrite Hkb. apply IH. intros p Hp. apply Hpre. now right.
Qed.

(** ** Hit test *)

(** C9. For any press point and any canvas whose handle dictionary was
    filled by [create_overlay], the hit test returns at most one handle: the
    first one, in the fixed order of the dictionary, whose box holds the
    point, and none when no box holds it.  The four corners come first in
    that order, so a corner wins over an edge midpoint whenever the point is
    in a corner's box.  No lower bound on the rectangle's size is needed. *)
Theorem hit_test_priority (x y : Z) (hs : list (Handle * Coords)) :
  map fst hs = handle_order ->
  match hit_test x y hs with
  | Some h =>
      first_hit x y hs h /\
      ((exists k c, In (k, c) hs /\ is_corner k = true /\ in_box x y c = true) ->
       is_corner h = true)
  | None => forall p, In p hs -> in_box x y (snd p) = false
  end.
Proof.
  intros E.
  destruct (keyed_handles hs E) as (a & b & c & d & e & f & g & i & ->).
  match goal with |- context [hit_test x y ?l] =>
    pose proof (hit_test_first_hit x y l) as HF;
    destruct (hit_test x y l) as [h |] eqn:Hh end; [| exact HF].
  split; [exact HF |].
  intros (k & bx & Hin & Hk & Hb).
  simpl in Hh.
  destruct (in_box x y a) eqn:Ha; [injection Hh as <-; reflexivity |].
  destruct (in_box x y b) eqn:Hb'; [injection Hh as <-; reflexivity |].
  destruct (in_box x y c) eqn:Hc; [injection Hh as <-; reflexivity |].
  destruct (in_box x y d) eqn:Hd; [injection Hh as <-; reflexivity |].
  simpl in Hin.
  repeat (destruct Hin as [Hin | Hin];
          [injection Hin as <- <-; simpl in Hk; congruence |]).
  destruct Hin.
Qed.

Lemma hit_test_priority_witness :
  first_hit 100 100 (initial_handles 100 100 400 300) top_left.
Proof.
  exact (proj1 (hit_test_priority 100 100 (initial_handles 100 100 400 300)
                  eq_refl)).
Defined.

(** C10, as amended.  The hit boxes are closed on all four sides.  For
    every press point inside or on the border of a handle's box, pressed
    while no body drag is in progress, [start_drag] enters resizing and not
    dragging.  The handle it takes is the first one in dictionary order whose
    box holds the point: the handle whose box was named, whenever no earlier
    entry's box holds the point as well. *)
Theorem press_in_handle_box_resizes
    (cv : Canvas) (d : DragData) (x y : Z) (h : Handle) (c : Coords) :
  dragging d = false ->
  In (h, c) (resize_handles cv) ->
  c0 c <= x <= c2 c -> c1 c <= y <= c3 c ->
  exists h',
    resizing (start_drag cv d x y) = Some h' /\
    dragging (start_drag cv d x y) = false /\
    first_hit x y (resize_handles cv) h' /\
    (forall pre post,
        resize_handles cv = pre ++ (h, c) :: post ->
        (forall p, In p pre -> in_box x y (snd p) = false) ->
        h' = h).
Proof.
  intros Hd Hin Hx Hy.
  assert (Hb : in_box x y c = true).
  { unfold in_box. rewrite !andb_true_iff, !Z.leb_le. lia. }
  unfold start_drag.
  pose proof (hit_test_first_hit x y (resize_handles cv)) as HF.
  destruct (hit_test x y (resize_handles cv)) as [h' |] eqn:Hh.
  - exists h'. simpl. repeat split; auto.
    intros pre post Hs Hpre.
    assert (Hh2 : hit_test x y (resize_handles cv) = Some h).
    { apply first_hit_hit_test. exists pre, c, post. auto. }
    congruence.
  - specialize (HF (h, c) Hin). simpl in HF. congruence.
Qed.

Lemma press_in_handle_box_resizes_witness :
  exists h',
    resizing (start_drag (mkCanvas (mkCoords 100 100 500 400)
                                   (initial_handles 100 100 400 300))
                         drag_data_init 505 250) = Some h'.
Proof.
  destruct (press_in_handle_box_resizes
              (mkCanvas (mkCoords 100 100 500 400)
                        (initial_handles 100 100 400 300))
              drag_data_init 505 250 right_mid (mkCoords 495 245 505 255))
    as (h' & Hr & _).
  - reflexivity.
  - simpl. do 7 right. left. reflexivity.
  - simpl. lia.
  - simpl. lia.
  - exists h'. exact Hr.
Defined.

(** ** Drag and resize *)




(** C2, as amended.  A resize sets the edge or edges the handle controls to
    the pointer's coordinate; the opposite edges stay where they were,
    nothing is clamped, and the canvas orders each pair.  Width and height
    are each at least 1 pixel exactly when the pointer's coordinate is not
    that of an opposite edge.  A pointer past the opposite edge turns the
    rectangle over; the edge is not pinned next to the opposite one. *)
Theorem resize_is_unclamped
    (cv : Canvas) (d : DragData) (x y : Z) (h : Handle) :
  well_formed (rectangle cv) ->
  dragging d = false ->
  resizing d = Some h ->
  (c0 (rectangle (drag keep_sorted cv d x y)),
   c2 (rectangle (drag keep_sorted cv d x y)))
    = axis_after (x_edge h) (c0 (rectangle cv)) (c2 (rectangle cv)) x /\
  (c1 (rectangle (drag keep_sorted cv d x y)),
   c3 (rectangle (drag keep_sorted cv d x y)))
    = axis_after (y_edge h) (c1 (rectangle cv)) (c3 (rectangle cv)) y /\
  (1 <= width (rectangle (drag keep_sorted cv d x y)) /\
   1 <= height (rectangle (drag keep_sorted cv d x y)) <->
   off_opposite h (rectangle cv) x y).
Proof.
  intros [Hx Hy] Hd Hr. unfold drag, put_rectangle. rewrite Hd, Hr.
  destruct h;
    unfold keep_sorted, axis_after, x_edge, y_edge, off_opposite, width, height;
    simpl;
    (split; [f_equal; lia |]); (split; [f_equal; lia |]); lia.
Qed.

Lemma resize_is_unclamped_witness :
  1 <= width (rectangle (drag keep_sorted canvas_400x300
                               (mkDragData 0 0 false (Some right_mid)) 50 250)) /\
  1 <= height (rectangle (drag keep_sorted canvas_400x300
                                (mkDragData 0 0 false (Some right_mid)) 50 250)).
Proof.
  apply (proj2 (proj2
           (resize_is_unclamped canvas_400x300
              (mkDragData 0 0 false (Some right_mid)) 50 250 right_mid
              ltac:(unfold well_formed; simpl; lia) eq_refl eq_refl))).
  simpl. lia.
Defined.

(** ** Session start *)

Lemma load_rectangle_config_eq w w' :
  config_file (outside w') = config_file (outside w) ->
  RECTANGLE_DEFAULT_WIDTH (globals w') = RECTANGLE_DEFAULT_WIDTH (globals w) ->
  RECTANGLE_DEFAULT_HEIGHT (globals w') = RECTANGLE_DEFAULT_HEIGHT (globals w) ->
  screenshot_folder (globals w') = screenshot_folder (globals w) ->
  load_rectangle_config w' = load_rectangle_config w.
Proof.
  intros Hc Hw Hh Hf. unfold load_rectangle_config, load_config, default_config.
  now rewrite Hc, Hw, Hh, Hf.
Qed.

(** With at least one monitor [create_overlay] runs to its end; this is
    the world it leaves. *)
Lemma create_overlay_run keep mx my monitors w m :
  current_monitor mx my monitors = Some m ->
  let r := create_overlay keep mx my monitors w in
  let off := offset_after monitors (canvas_offset_x (globals w)) in
  let nid := next_id (outside w) in
  fst r = Some tt /\
  canvas_offset_x (globals (snd r)) = off /\
  canvas (globals (snd r)) =
    Some (canvas_of keep (initial_geometry m off (load_rectangle_config w))) /\
  (exists ov, overlay_window (globals (snd r)) = Some ov /\ ov_id ov = nid /\
     py_min (map m_x monitors) = Some (ov_x ov) /\
     py_min (map m_y monitors) = Some (ov_y ov)) /\
  dialog (globals (snd r)) = Some (S nid) /\
  drag_data (globals (snd r)) = drag_data (globals w) /\
  toplevels (outside (snd r)) =
    S nid :: nid ::
      match overlay_window (globals w) with
      | Some ov => without (ov_id ov) (toplevels (outside w))
      | None => toplevels (outside w)
      end /\
  next_id (outside (snd r)) = S (S nid) /\
  config_file (outside (snd r)) = config_file (outside w) /\
  timers (outside (snd r)) = timers (outside w) /\
  grabs (outside (snd r)) = grabs (outside w).
Proof.
  intros Hm.
  destruct monitors as [| m0 rest]; [discriminate Hm |].
  unfold create_overlay, destroy_overlay, show_dialog, tk_destroy, or_raise,
    bind, get_globals, get_outside, on_globals, on_outside, ret, raise,
    py_min, py_max, offset_after.
  rewrite Hm.
  cbn [map fst snd globals outside py_min].
  destruct (overlay_window (globals w)) as [ov0 |];
    cbn [globals outside];
    destruct (fold_left Z.min (map m_x rest) (m_x m0) <? 0);
    (rewrite (load_rectangle_config_eq w) by reflexivity);
    cbn [canvas_offset_x globals with_offset with_overlay];
    destruct (initial_geometry _ _ _) as [[[rx ry] W] H];
    cbn; repeat split; eauto 10.
Qed.

Lemma without_not_in d l : ~ In d (without d l).
Proof.
  unfold without. rewrite filter_In. intros [_ H].
  now rewrite Nat.eqb_refl in H.
Qed.

(** Where the offsets agree, the x offset after [create_overlay] is minus
    the overlay's x and the overlay starts at y = 0. *)
Lemma create_overlay_shown keep mx my monitors w m :
  current_monitor mx my monitors = Some m ->
  offsets_agree monitors (canvas_offset_x (globals w)) ->
  exists ov,
    fst (create_overlay keep mx my monitors w) = Some tt /\
    overlay_window (globals (snd (create_overlay keep mx my monitors w)))
      = Some ov /\
    ov_y ov = 0 /\
    canvas_offset_x (globals (snd (create_overlay keep mx my monitors w)))
      = - ov_x ov /\
    canvas (globals (snd (create_overlay keep mx my monitors w))) =
      Some (canvas_of keep
              (initial_geometry m (- ov_x ov) (load_rectangle_config w))).
Proof.
  intros Hm (Hy0 & min_x & Hx0 & Hoff0).
  destruct (create_overlay_run keep mx my monitors w m Hm)
    as (Hr & Hoff & Hcv & (ov & Hov & _ & Hx & Hy) & _).
  cbv zeta in Hoff, Hcv.
  assert (Ex : ov_x ov = min_x) by congruence.
  assert (Ey : ov_y ov = 0) by congruence.
  assert (Eo : offset_after monitors (canvas_offset_x (globals w)) = - ov_x ov).
  { unfold offset_after. rewrite Hx0, Ex.
    destruct (min_x <? 0) eqn:E; [reflexivity |].
    apply Z.ltb_ge in E. destruct Hoff0; [lia | assumption]. }
  exists ov. rewrite Hoff, Hcv, Eo. repeat split; assumption.
Qed.

(** The check of [create_overlay] says that the loaded rectangle, where the
    overlay shows it, has both corners in the monitor's box. *)
Lemma valid_iff_corners_inside m ov x y W H :
  ov_y ov = 0 ->
  rect_config_valid m (- ov_x ov) x y W H = true <->
  corners_inside m (on_desktop ov (mkCoords x y (x + W) (y + H))).
Proof.
  intros Ey. unfold rect_config_valid, corners_inside, on_desktop. simpl.
  rewrite !andb_true_iff, !Z.leb_le, !Z.ltb_lt. lia.
Qed.

(** The rectangle of the reset branch, where the overlay shows it. *)
Lemma reset_shown_centred m ov :
  ov_y ov = 0 ->
  let W := m_width m / 2 in
  let H := m_height m / 2 in
  let x := m_x m + m_width m / 2 - W / 2 + - ov_x ov in
  let y := m_y m + m_height m / 2 - H / 2 in
  centred_on m (on_desktop ov (mkCoords x y (x + W) (y + H))).
Proof.
  intros Ey. cbv zeta. unfold centred_on, on_desktop.
  cbn [c0 c1 c2 c3].
  split; [lia |]. split; [lia |].
  split; Z.div_mod_to_equations; lia.
Qed.

(** C3, as amended.  Firing the trigger while a session is open replaces
    that session.  The open overlay window is destroyed; a new overlay
    window and a new dialog are created; the rectangle and its handles are
    set anew from the persisted geometry or the reset rectangle.  The
    filter does not return: it ends in the exception of
    [listener.suppress_event()]. *)
Theorem trigger_reopens_session
    (keep : Coords -> Coords) (mx my : Z) (monitors : list Monitor)
    (w : World) (ov : Overlay) (m : Monitor) :
  overlay_window (globals w) = Some ov ->
  (ov_id ov < next_id (outside w))%nat ->
  current_monitor mx my monitors = Some m ->
  let r := print_screen keep mx my monitors w in
  fst r = None /\
  ~ In (ov_id ov) (toplevels (outside (snd r))) /\
  (exists ov', overlay_window (globals (snd r)) = Some ov' /\
               ov_id ov' = next_id (outside w) /\
               ov_id ov' <> ov_id ov /\
               In (ov_id ov') (toplevels (outside (snd r)))) /\
  dialog (globals (snd r)) = Some (S (next_id (outside w))) /\
  canvas (globals (snd r)) =
    Some (canvas_of keep
            (initial_geometry m
               (offset_after monitors (canvas_offset_x (globals w)))
               (load_rectangle_config w))).
Proof.
  intros Hov Hlt Hm.
  destruct (create_overlay_run keep mx my monitors w m Hm)
    as (Hr & _ & Hcv & (ov' & Hov' & Hid & _) & Hdlg & _ & Htop & _).
  unfold print_screen, win32_event_filter. simpl.
  unfold bind, raise.
  destruct (create_overlay keep mx my monitors w) as [[[] |] w'];
    simpl in *; try discriminate Hr.
  rewrite Hov in Htop.
  repeat split; auto.
  - rewrite Htop. simpl. intros [H | [H | H]]; try lia.
    now apply without_not_in in H.
  - exists ov'. repeat split; auto; try lia.
    rewrite Htop, Hid. simpl. auto.
Qed.

Lemma trigger_reopens_session_witness :
  ~ In 0%nat (toplevels (outside (snd (print_screen keep_sorted 10 10
                                         [monitor_1280]
                                         (resized_session keep_sorted))))) /\
  dialog (globals (snd (print_screen keep_sorted 10 10 [monitor_1280]
                          (resized_session keep_sorted)))) = Some 3%nat.
Proof.
  destruct (trigger_reopens_session keep_sorted 10 10 [monitor_1280]
              (resized_session keep_sorted)
              (mkOverlay 0%nat 1280 800 0 0) monitor_1280)
    as (_ & Hgone & _ & Hdlg & _).
  - reflexivity.
  - vm_compute. lia.
  - reflexivity.
  - split; [exact Hgone | exact Hdlg].
Defined.

(** C3 as stated fails.  A session is open with its rectangle resized to
    [{100,100,700,500}].  Print Screen destroys overlay window 0 and makes
    overlay window 2, puts the rectangle back to the persisted
    [{100,100,400,300}], and leaves the first dialog (window 1) on screen
    next to the new one (window 3). *)
Lemma retrigger_is_not_a_noop :
  let w := resized_session keep_sorted in
  let w' := snd (print_screen keep_sorted 10 10 [monitor_1280] w) in
  option_map ov_id (overlay_window (globals w)) = Some 0%nat /\
  option_map ov_id (overlay_window (globals w')) = Some 2%nat /\
  option_map rectangle (canvas (globals w)) = Some (mkCoords 100 100 700 500) /\
  option_map rectangle (canvas (globals w')) = Some (mkCoords 100 100 400 300) /\
  toplevels (outside w) = [1; 0]%nat /\
  toplevels (outside w') = [3; 2; 1]%nat /\
  w' <> w.
Proof.
  repeat split; try reflexivity.
  intros H.
  apply (f_equal (fun w => option_map ov_id (overlay_window (globals w)))) in H.
  vm_compute in H. discriminate H.
Qed.

(** C4, as amended.  Where the overlay shows canvas points at the desktop
    place the script takes them for (the topmost monitor starts at y = 0 and
    the x offset is current), the session start does this.  If the
    persisted rectangle has both corners inside the monitor under the
    pointer it is kept as it is.  If not, the session starts from a
    rectangle half as wide and half as high as that monitor and centred on
    it. *)
Theorem session_start_keeps_or_centres
    (keep : Coords -> Coords) (mx my : Z) (monitors : list Monitor)
    (w : World) (m : Monitor) :
  keeps_ordered keep ->
  current_monitor mx my monitors = Some m ->
  0 <= m_width m -> 0 <= m_height m ->
  offsets_agree monitors (canvas_offset_x (globals w)) ->
  let r := create_overlay keep mx my monitors w in
  let '(x, y, W, H) := load_rectangle_config w in
  exists ov cv,
    fst r = Some tt /\
    overlay_window (globals (snd r)) = Some ov /\
    canvas (globals (snd r)) = Some cv /\
    (corners_inside m (on_desktop ov (mkCoords x y (x + W) (y + H))) ->
     rectangle cv = keep (mkCoords x y (x + W) (y + H))) /\
    (~ corners_inside m (on_desktop ov (mkCoords x y (x + W) (y + H))) ->
     centred_on m (on_desktop ov (rectangle cv))).
Proof.
  intros Hk Hm Hw Hh Hagree. cbv zeta.
  destruct (create_overlay_shown keep mx my monitors w m Hm Hagree)
    as (ov & Hr & Hov & Ey & _ & Hcv).
  destruct (load_rectangle_config w) as [[[x y] W] H].
  exists ov. eexists. split; [exact Hr |]. split; [exact Hov |].
  split; [exact Hcv |].
  pose proof (valid_iff_corners_inside m ov x y W H Ey) as Hiff.
  unfold initial_geometry.
  destruct (rect_config_valid m (- ov_x ov) x y W H) eqn:Hv; cbn [negb].
  - split; [intros _; reflexivity |].
    intros Hn. elim Hn. now apply Hiff.
  - split.
    + intros Hc. apply Hiff in Hc. discriminate Hc.
    + intros _. cbn [canvas_of rectangle].
      rewrite Hk.
      * apply (reset_shown_centred m ov Ey).
      * simpl. pose proof (Z.div_pos (m_width m) 2 Hw). lia.
      * simpl. pose proof (Z.div_pos (m_height m) 2 Hh). lia.
Qed.

Lemma session_start_keeps_or_centres_witness :
  exists ov cv,
    overlay_window
      (globals (snd (create_overlay keep_sorted 10 10 [monitor_1280]
         (start_world "Desktop" (Some (persisted 2000 100 300 200 None))))))
      = Some ov /\
    canvas
      (globals (snd (create_overlay keep_sorted 10 10 [monitor_1280]
         (start_world "Desktop" (Some (persisted 2000 100 300 200 None))))))
      = Some cv /\
    centred_on monitor_1280 (on_desktop ov (rectangle cv)).
Proof.
  destruct (session_start_keeps_or_centres keep_sorted 10 10 [monitor_1280]
              (start_world "Desktop" (Some (persisted 2000 100 300 200 None)))
              monitor_1280 keep_sorted_ordered eq_refl)
    as (ov & cv & _ & Hov & Hcv & _ & Hreset).
  - simpl. lia.
  - simpl. lia.
  - split; [reflexivity |]. exists 0. split; [reflexivity | now right].
  - exists ov, cv. split; [exact Hov |]. split; [exact Hcv |].
    apply Hreset. intros (H1 & _).
    vm_compute in Hov. injection Hov as <-. simpl in H1. lia.
Defined.

(** C4 as stated fails in its scenario.  Rectangle [{100,100,400,300}],
    persisted as x 100, y 100, width 300, height 200, lies inside monitor
    [{0,0,1280,800}]: it passes the check and the session starts from it,
    not from [{320,200,960,600}].  Read as x, y, width 400 and height 300
    it passes as well. *)
Lemma persisted_rectangle_inside_is_kept :
  option_map rectangle
    (canvas (globals (first_session keep_sorted (persisted 100 100 300 200 None)
                                    10 10 [monitor_1280])))
  = Some (mkCoords 100 100 400 300) /\
  option_map rectangle
    (canvas (globals (first_session keep_verbatim (persisted 100 100 300 200 None)
                                    10 10 [monitor_1280])))
  = Some (mkCoords 100 100 400 300) /\
  option_map rectangle
    (canvas (globals (first_session keep_sorted (persisted 100 100 400 300 None)
                                    10 10 [monitor_1280])))
  = Some (mkCoords 100 100 500 400) /\
  mkCoords 100 100 400 300 <> mkCoords 320 200 960 600 /\
  mkCoords 100 100 500 400 <> mkCoords 320 200 960 600.
Proof. repeat split; try reflexivity; discriminate. Qed.

(** ** Gestures that leave the rectangle degenerate *)


(** C2 as stated fails.  The right middle handle of [{100,100,500,400}] is
    pulled to x = 100, the left edge: the width becomes 0.  Pulled on to
    x = 50 the right edge is not pinned at 101: the canvas holds
    [{100,100,50,400}] when it keeps corners as given and the flipped
    [{50,100,100,400}] when it orders them. *)
Lemma resize_is_not_clamped :
  let d := start_drag canvas_400x300 drag_data_init 500 250 in
  resizing d = Some right_mid /\
  width (rectangle (drag keep_verbatim canvas_400x300 d 100 250)) = 0 /\
  width (rectangle (drag keep_sorted canvas_400x300 d 100 250)) = 0 /\
  rectangle (drag keep_verbatim canvas_400x300 d 50 250)
    = mkCoords 100 100 50 400 /\
  rectangle (drag keep_sorted canvas_400x300 d 50 250)
    = mkCoords 50 100 100 400 /\
  ~ 1 <= width (rectangle (drag keep_sorted canvas_400x300 d 100 250)).
Proof.
  repeat split; try reflexivity.
  intros H. vm_compute in H. apply H. reflexivity.
Qed.

(** C10 as stated fails.  On the rectangle [{100,100,110,200}] the boxes of
    the top left and top right handles share the line x = 105.  The point
    [(105, 100)] lies on the left border of the top right handle's box, and
    the press resizes by the top left handle.  And a press on a handle does
    not clear [dragging]: when Escape ended a session during a body drag,
    the next press on a handle leaves both modes set, and the motion that
    follows moves the rectangle instead of resizing it. *)
Lemma press_on_shared_border :
  In (top_right, mkCoords 105 95 115 105) (resize_handles canvas_10x100) /\
  in_box 105 100 (mkCoords 105 95 115 105) = true /\
  resizing (start_drag canvas_10x100 drag_data_init 105 100) = Some top_left /\
  resizing (start_drag canvas_10x100 drag_data_init 105 100) <> Some top_right /\
  (let w := press_after_escaped_drag keep_sorted in
   resizing (drag_data (globals w)) = Some bottom_right /\
   dragging (drag_data (globals w)) = true /\
   option_map rectangle (canvas (globals w)) = Some (mkCoords 100 100 400 300) /\
   option_map rectangle (canvas (globals (snd (pointer_motion keep_sorted 700 500 w))))
     = Some (mkCoords 600 500 900 700)).
Proof.
  repeat split; try reflexivity.
  - simpl. right. left. reflexivity.
  - discriminate.
Qed.

(** ** Frame lemmas: what capture and delivery leave alone *)

Lemma same_settings_refl w : same_settings w w.
Proof. unfold same_settings; repeat split; reflexivity. Qed.

Lemma same_settings_trans w1 w2 w3 :
  same_settings w1 w2 -> same_settings w2 w3 -> same_settings w1 w3.
Proof.
  unfold same_settings.
  intros (a1 & a2 & a3 & a4 & a5 & a6 & a7 & a8)
         (b1 & b2 & b3 & b4 & b5 & b6 & b7 & b8).
  repeat split; congruence.
Qed.

Lemma frames_ret {A} (a : A) : frames (ret a).
Proof. intros w. apply same_settings_refl. Qed.

Lemma frames_raise {A} : frames (@raise A).
Proof. intros w. apply same_settings_refl. Qed.

Lemma frames_bind {A B} (m : M A) (k : A -> M B) :
  frames m -> (forall a, frames (k a)) -> frames (bind m k).
Proof.
  intros Hm Hk w. unfold bind. specialize (Hm w).
  destruct (m w) as [[a |] w']; simpl in *; [| exact Hm].
  eapply same_settings_trans; [exact Hm | apply Hk].
Qed.

Lemma frames_or_raise {A} (o : option A) : frames (or_raise o).
Proof. destruct o; [apply frames_ret | apply frames_raise]. Qed.

Lemma frames_get_globals : frames get_globals.
Proof. intros w. apply same_settings_refl. Qed.

Lemma frames_get_outside : frames get_outside.
Proof. intros w. apply same_settings_refl. Qed.

Lemma frames_tk_destroy d : frames (tk_destroy d).
Proof. intros w. unfold same_settings. simpl. repeat split; reflexivity. Qed.

Lemma frames_tk_withdraw d : frames (tk_withdraw d).
Proof.
  unfold tk_withdraw. apply frames_bind; [apply frames_get_outside |].
  intros o. destruct (alive d o); [apply frames_ret | apply frames_raise].
Qed.

Lemma frames_destroy_overlay : frames destroy_overlay.
Proof.
  unfold destroy_overlay.
  apply frames_bind; [apply frames_get_globals | intros g].
  apply frames_bind.
  - destruct (overlay_window g); [apply frames_tk_destroy | apply frames_ret].
  - intros _ w. unfold same_settings. simpl. repeat split; reflexivity.
Qed.

Lemma frames_capture_screenshot rect p mx my :
  frames (capture_screenshot rect p mx my).
Proof.
  unfold capture_screenshot.
  apply frames_bind; [apply frames_get_globals | intros g].
  apply frames_bind.
  { destruct (overlay_window g); [apply frames_tk_withdraw | apply frames_ret]. }
  intros _. apply frames_bind.
  { destruct (dialog g); [apply frames_tk_withdraw | apply frames_ret]. }
  intros _. apply frames_bind; [| intros; apply frames_ret].
  intros w. unfold same_settings. simpl. repeat split; reflexivity.
Qed.

Lemma frames_save_screenshot img c f folder ts :
  frames (save_screenshot img c f folder ts).
Proof.
  unfold save_screenshot, to_clipboard, to_file.
  apply frames_bind.
  - destruct c; [| apply frames_ret].
    apply frames_bind; [apply frames_get_outside | intros o].
    destruct (clipboard_busy o); [apply frames_raise |].
    intros w. unfold same_settings. simpl. repeat split; reflexivity.
  - intros _. destruct f; [| apply frames_ret].
    apply frames_bind; [apply frames_get_outside | intros o].
    destruct (existsb _ _); [| apply frames_raise].
    intros w. unfold same_settings. simpl. repeat split; reflexivity.
Qed.

Lemma frames_take_screenshot rect d mx my ts :
  frames (take_screenshot rect d mx my ts).
Proof.
  unfold take_screenshot, vars_of.
  apply frames_bind.
  { apply frames_bind; [apply frames_get_outside | intros; apply frames_or_raise]. }
  intros vars. apply frames_bind; [apply frames_capture_screenshot | intros img].
  apply frames_bind; [apply frames_save_screenshot | intros _].
  apply frames_bind; [apply frames_destroy_overlay | intros _].
  apply frames_bind; [apply frames_get_globals | intros g].
  apply frames_bind; [apply frames_or_raise | intros; apply frames_tk_destroy].
Qed.

Lemma frames_on_press b : frames (on_press b).
Proof.
  unfold on_press. destruct b; [| apply frames_ret].
  apply frames_bind; [apply frames_destroy_overlay | intros _].
  apply frames_bind; [apply frames_get_globals | intros g].
  destruct (dialog g); [apply frames_tk_destroy | apply frames_ret].
Qed.

(** ** Delayed capture *)

(** What [on_save] does up to its last [if]. *)
Lemma on_save_run d mx my ts w cv vars :
  canvas (globals w) = Some cv ->
  vars_lookup d (dialog_vars (outside w)) = Some vars ->
  let saved :=
    mkWorld (globals w)
      (if config_writable (outside w)
       then with_config_file
              (Some (persisted (c0 (rectangle cv)) (c1 (rectangle cv))
                               (c2 (rectangle cv) - c0 (rectangle cv))
                               (c3 (rectangle cv) - c1 (rectangle cv))
                               (Some vars)))
              (outside w)
       else outside w) in
  on_save d mx my ts w =
    if delay_screenshot vars
    then (Some tt,
          mkWorld (globals saved)
                  (with_timers (mkTimer (rectangle cv) d :: timers (outside saved))
                               (outside saved)))
    else take_screenshot (rectangle cv) d mx my ts saved.
Proof.
  intros Hcv Hv.
  unfold on_save, vars_of, save_config, or_raise, bind, get_globals,
    get_outside, on_globals, on_outside, ret, raise.
  cbn [fst snd globals outside]. rewrite Hcv, Hv.
  cbn [fst snd globals outside].
  destruct (delay_screenshot vars); reflexivity.
Qed.

(** C6, as amended.  Save with the delay box ticked starts exactly one
    timer and grabs nothing.  The timer is one-shot: when it fires it leaves
    the set of pending timers.  Escape destroys the overlay and the dialog
    and does not abort the timer, which stays pending. *)
Theorem delayed_capture_is_scheduled_once
    (d : WinId) (mx my : Z) (ts : string) (w : World) (cv : Canvas)
    (vars : Options) :
  canvas (globals w) = Some cv ->
  vars_lookup d (dialog_vars (outside w)) = Some vars ->
  delay_screenshot vars = true ->
  let r := on_save d mx my ts w in
  let t := mkTimer (rectangle cv) d in
  fst r = Some tt /\
  timers (outside (snd r)) = t :: timers (outside w) /\
  grabs (outside (snd r)) = grabs (outside w) /\
  timers (outside (snd (on_press true (snd r)))) = t :: timers (outside w) /\
  canvas (globals (snd (on_press true (snd r)))) = None /\
  (forall mx' my' ts',
     timers (outside (snd (timer_fires 0 mx' my' ts' (snd r))))
       = timers (outside w)) /\
  (forall mx' my' ts',
     timers (outside (snd (timer_fires 0 mx' my' ts'
                             (snd (on_press true (snd r))))))
       = timers (outside w)).
Proof.
  intros Hcv Hv Hd. cbv zeta.
  rewrite (on_save_run d mx my ts w cv vars Hcv Hv), Hd.
  cbn [fst snd globals outside].
  set (w1 := {| globals := globals w; outside := _ |}).
  assert (Ht : timers (outside w1) = mkTimer (rectangle cv) d :: timers (outside w)).
  { unfold w1. simpl. destruct (config_writable (outside w)); reflexivity. }
  assert (Hfire : forall mx' my' ts' w2,
             timers (outside w2) = mkTimer (rectangle cv) d :: timers (outside w) ->
             timers (outside (snd (timer_fires 0 mx' my' ts' w2)))
             = timers (outside w)).
  { intros mx' my' ts' w2 H2.
    unfold timer_fires, or_raise, bind, get_outside, on_outside, ret.
    cbn [fst snd globals outside]. rewrite H2.
    cbn [nth_error remove_nth fst snd globals outside].
    match goal with |- context [take_screenshot ?a ?b ?c ?e ?f ?g] =>
      destruct (frames_take_screenshot a b c e f g) as (Hf & _) end.
    cbn [snd] in *. rewrite Hf. simpl. rewrite H2. reflexivity. }
  destruct (frames_on_press true w1) as (Hesc & _).
  repeat split; auto.
  - unfold w1. simpl. destruct (config_writable (outside w)); reflexivity.
  - congruence.
  - unfold on_press, destroy_overlay, bind, get_globals, on_globals, ret, tk_destroy, on_outside.
    cbn [fst snd globals outside].
    destruct (overlay_window (globals w1)); cbn [fst snd globals outside];
      destruct (dialog _); reflexivity.
  - intros. apply Hfire. congruence.
Qed.

Lemma delayed_capture_is_scheduled_once_witness :
  timers (outside armed_session) = [mkTimer (mkCoords 100 100 400 300) 1%nat] /\
  grabs (outside armed_session) = [].
Proof.
  pose (w := first_session keep_sorted
               (persisted 100 100 300 200 (Some delay_options)) 10 10
               [monitor_1280]).
  destruct (delayed_capture_is_scheduled_once 1%nat 10 10 "20250203_120000" w
              (mkCanvas (mkCoords 100 100 400 300)
                        (initial_handles 100 100 300 200))
              delay_options eq_refl eq_refl eq_refl)
    as (_ & Ht & Hg & _).
  split; [exact Ht | exact Hg].
Defined.

(** C6 as stated fails.  Save is pressed with the delay ticked, then
    Escape: the timer made by Save is still pending, nothing has cancelled
    it.  When Print Screen opens a new session before the five seconds are
    over, the timer fires into it: the old rectangle is grabbed and put on
    the clipboard, and the new overlay and dialog are destroyed. *)
Lemma escape_leaves_timer_pending :
  let pending := [mkTimer (mkCoords 100 100 400 300) 1%nat] in
  let escaped := snd (on_press true armed_session) in
  let again := snd (print_screen keep_sorted 10 10 [monitor_1280] escaped) in
  let fired := snd (timer_fires 0 10 10 "20250203_120004" again) in
  timers (outside armed_session) = pending /\
  timers (outside escaped) = pending /\
  toplevels (outside escaped) = [] /\
  grabs (outside again) = [] /\
  toplevels (outside again) = [3; 2]%nat /\
  map bbox (grabs (outside fired)) = [mkCoords 100 100 400 300] /\
  option_map bbox (clipboard (outside fired)) = Some (mkCoords 100 100 400 300) /\
  toplevels (outside fired) = [] /\
  timers (outside fired) = [].
Proof. repeat split; reflexivity. Qed.

(** ** Delivery to clipboard and file *)

(** C7, as amended.  With both sinks requested the clipboard is written
    first and the file second.  A missing target folder fails the file
    sink only: the clipboard already holds the image.  When the clipboard
    cannot be opened the exception leaves [save_screenshot] before the file
    branch, so no file is written.  When neither fails both are written. *)
Theorem sinks_run_clipboard_then_file
    (img : Image) (folder ts : string) (w : World) :
  let r := save_screenshot img true true folder ts w in
  let there := existsb (String.eqb folder) (folders (outside w)) in
  (clipboard_busy (outside w) = true ->
   fst r = None /\ snd r = w) /\
  (clipboard_busy (outside w) = false -> there = false ->
   fst r = None /\
   clipboard (outside (snd r)) = Some img /\
   files (outside (snd r)) = files (outside w)) /\
  (clipboard_busy (outside w) = false -> there = true ->
   fst r = Some tt /\
   clipboard (outside (snd r)) = Some img /\
   files (outside (snd r)) =
     (folder, ("screenshot_" ++ ts ++ ".png")%string, img) :: files (outside w)).
Proof.
  cbv zeta.
  unfold save_screenshot, to_clipboard, to_file, bind, get_outside,
    on_outside, ret, raise.
  cbn [fst snd globals outside].
  destruct w as [g o]. cbn [fst snd globals outside].
  destruct (clipboard_busy o) eqn:Hb; cbn [fst snd globals outside].
  - repeat split; intros; try discriminate; reflexivity.
  - destruct o; cbn in *.
    destruct (existsb _ _) eqn:He; cbn;
      repeat split; intros; try discriminate; reflexivity.
Qed.

Lemma sinks_run_clipboard_then_file_witness :
  fst (save_screenshot picture true true "Desktop" "20250203_120000"
         clipboard_held) = None /\
  snd (save_screenshot picture true true "Desktop" "20250203_120000"
         clipboard_held) = clipboard_held.
Proof.
  exact (proj1 (sinks_run_clipboard_then_file picture "Desktop"
                  "20250203_120000" clipboard_held) eq_refl).
Defined.

(** C7 as stated fails.  The target folder exists and the clipboard is
    held by another process.  Asked for the file alone, [save_screenshot]
    writes it; asked for both, it raises in the clipboard branch and writes
    no file. *)
Lemma clipboard_failure_blocks_file :
  existsb (String.eqb "Desktop") (folders (outside clipboard_held)) = true /\
  files (outside (snd (save_screenshot picture false true "Desktop"
                         "20250203_120000" clipboard_held)))
    = [("Desktop", "screenshot_20250203_120000.png", picture)]%string /\
  fst (save_screenshot picture true true "Desktop" "20250203_120000"
         clipboard_held) = None /\
  files (outside (snd (save_screenshot picture true true "Desktop"
                         "20250203_120000" clipboard_held))) = [].
Proof. repeat split; reflexivity. Qed.

(** ** Persisting and reloading the rectangle *)

Lemma on_save_persists d mx my ts w cv vars :
  canvas (globals w) = Some cv ->
  vars_lookup d (dialog_vars (outside w)) = Some vars ->
  config_writable (outside w) = true ->
  let saved := snd (on_save d mx my ts w) in
  config_file (outside saved) =
    Some (persisted (c0 (rectangle cv)) (c1 (rectangle cv))
                    (c2 (rectangle cv) - c0 (rectangle cv))
                    (c3 (rectangle cv) - c1 (rectangle cv)) (Some vars)) /\
  canvas_offset_x (globals saved) = canvas_offset_x (globals w).
Proof.
  intros Hcv Hv Hw. cbv zeta.
  rewrite (on_save_run d mx my ts w cv vars Hcv Hv), Hw.
  destruct (delay_screenshot vars).
  - split; reflexivity.
  - match goal with |- context [take_screenshot ?a ?b ?c ?e ?f ?g] =>
      destruct (frames_take_screenshot a b c e f g)
        as (_ & Hc & _ & _ & Ho & _) end.
    rewrite Hc, Ho. split; reflexivity.
Qed.

(** C8, as amended.  A rectangle persisted at confirm is the rectangle of
    the next session on the same monitors, provided the configuration file
    could be written and the rectangle passes the check against the monitor
    under the pointer when that session starts. *)
Theorem persisted_rectangle_reloads
    (keep : Coords -> Coords) (d : WinId) (mx0 my0 : Z) (ts : string)
    (mx my : Z) (monitors : list Monitor) (w : World) (cv : Canvas)
    (vars : Options) (m : Monitor) :
  keeps_ordered keep ->
  canvas (globals w) = Some cv ->
  c0 (rectangle cv) <= c2 (rectangle cv) ->
  c1 (rectangle cv) <= c3 (rectangle cv) ->
  vars_lookup d (dialog_vars (outside w)) = Some vars ->
  config_writable (outside w) = true ->
  current_monitor mx my monitors = Some m ->
  let saved := snd (on_save d mx0 my0 ts w) in
  let r := create_overlay keep mx my monitors saved in
  rect_config_valid m (canvas_offset_x (globals (snd r)))
    (c0 (rectangle cv)) (c1 (rectangle cv))
    (width (rectangle cv)) (height (rectangle cv)) = true ->
  fst r = Some tt /\
  option_map rectangle (canvas (globals (snd r))) = Some (rectangle cv).
Proof.
  intros Hk Hcv Hx Hy Hv Hw Hm. cbv zeta.
  destruct (on_save_persists d mx0 my0 ts w cv vars Hcv Hv Hw) as (Hcfg & _).
  cbv zeta in Hcfg.
  set (saved := snd (on_save d mx0 my0 ts w)) in *.
  destruct (create_overlay_run keep mx my monitors saved m Hm)
    as (Hr & Hoff & Hc & _).
  cbv zeta in Hoff, Hc. rewrite Hoff, Hc. intros Hvalid.
  split; [exact Hr |].
  unfold load_rectangle_config, load_config. rewrite Hcfg.
  unfold persisted, initial_geometry, width, height in *. cbn [cfg_rectangle dict_get rc_x rc_y rc_width rc_height].
  rewrite Hvalid. cbn [negb canvas_of option_map rectangle].
  f_equal. destruct (rectangle cv) as [a b c e]. cbn in *.
  replace (a + (c - a)) with c by lia.
  replace (b + (e - b)) with e by lia.
  apply Hk; assumption.
Qed.

Lemma persisted_rectangle_reloads_witness :
  option_map rectangle
    (canvas (globals (snd (create_overlay keep_sorted 10 10 [monitor_1280]
       (snd (on_save 1%nat 10 10 "20250203_120000"
                     (resized_session keep_sorted)))))))
  = Some (mkCoords 100 100 700 500).
Proof.
  refine (proj2 (persisted_rectangle_reloads keep_sorted 1%nat 10 10
                   "20250203_120000" 10 10 [monitor_1280]
                   (resized_session keep_sorted)
                   (mkCanvas (mkCoords 100 100 700 500)
                             (initial_handles 100 100 600 400))
                   (mkOptions false true false "Desktop" false) monitor_1280
                   keep_sorted_ordered _ _ _ _ _ _ _)).
  - reflexivity.
  - simpl. lia.
  - simpl. lia.
  - reflexivity.
  - reflexivity.
  - reflexivity.
  - reflexivity.
Defined.

(** C8 as stated fails.  On two monitors side by side the rectangle
    [{2000,100,2400,400}] sits on the right one and is persisted by Save.
    The next Print Screen, on the same two monitors, comes with the pointer
    on the left monitor: the persisted rectangle fails the check against
    that monitor and the session starts from [{480,270,1440,810}]. *)
Lemma reload_depends_on_pointer_monitor :
  let w := first_session keep_sorted (persisted 2000 100 400 300 None)
                         2500 500 monitors_side_by_side in
  let saved := snd (on_save 1%nat 2500 500 "20250203_120000" w) in
  let again := snd (print_screen keep_sorted 10 10 monitors_side_by_side saved) in
  option_map rectangle (canvas (globals w)) = Some (mkCoords 2000 100 2400 400) /\
  option_map cfg_rectangle (config_file (outside saved))
    = Some (Some (mkRectConfig (Some 2000) (Some 100) (Some 400) (Some 300))) /\
  option_map rectangle (canvas (globals again)) = Some (mkCoords 480 270 1440 810) /\
  option_map rectangle (canvas (globals again))
    <> option_map rectangle (canvas (globals w)).
Proof. repeat split; try reflexivity. discriminate. Qed.

(** ** Capture region *)

(** C5 at a failing input.  With a second monitor above the first the
    overlay window starts at y = -1080.  The rectangle [{100,100,500,400}]
    of the canvas covers desktop rows -980 to -680, on the upper monitor;
    Save grabs rows 100 to 400, on the lower one.  With the second monitor
    to the left instead, the x offset is taken off and the grab is the
    region shown. *)
Lemma capture_ignores_vertical_origin :
  let above := first_session keep_sorted (persisted 100 100 400 300 None)
                             10 10 monitors_stacked in
  let left := first_session keep_sorted (persisted 2020 100 400 300 None)
                            10 10 monitors_left in
  shown_region above = Some (mkCoords 100 (-980) 500 (-680)) /\
  map bbox (grabs (outside (snd (on_save 1%nat 10 10 "20250203_120000" above))))
    = [mkCoords 100 100 500 400] /\
  shown_region left = Some (mkCoords 100 100 500 400) /\
  map bbox (grabs (outside (snd (on_save 1%nat 10 10 "20250203_120000" left))))
    = [mkCoords 100 100 500 400].
Proof. repeat split; reflexivity. Qed.

(** ** Moving the body *)

(** X1.  While [dragging] is set, a motion keeps the rectangle's width and
    height and puts its top left corner at the pointer minus the grab
    offset. *)
Theorem body_drag_keeps_size
    (keep : Coords -> Coords) (cv : Canvas) (d : DragData) (x y : Z) :
  keeps_ordered keep ->
  c0 (rectangle cv) <= c2 (rectangle cv) ->
  c1 (rectangle cv) <= c3 (rectangle cv) ->
  dragging d = true ->
  width (rectangle (drag keep cv d x y)) = width (rectangle cv) /\
  height (rectangle (drag keep cv d x y)) = height (rectangle cv) /\
  c0 (rectangle (drag keep cv d x y)) = x - dd_x d /\
  c1 (rectangle (drag keep cv d x y)) = y - dd_y d.
Proof.
  intros Hk Hx Hy Hd. unfold drag, put_rectangle. rewrite Hd. simpl.
  rewrite Hk; unfold move_coords, width, height; simpl; repeat split; lia.
Qed.

Lemma body_drag_keeps_size_witness :
  width (rectangle (drag keep_sorted canvas_400x300
                         (mkDragData 30 40 true None) 230 340)) = 400.
Proof.
  refine (proj1 (body_drag_keeps_size keep_sorted canvas_400x300
                   (mkDragData 30 40 true None) 230 340
                   keep_sorted_ordered _ _ eq_refl)).
  - simpl. lia.
  - simpl. lia.
Defined.

(** X2.  A press that hits no handle, followed by motions, moves the
    rectangle by the pointer's displacement from the press point: after one
    motion, and after a second one, whatever the first was. *)
Theorem press_then_motion_translates
    (keep : Coords -> Coords) (cv : Canvas) (d : DragData)
    (x y x1 y1 x2 y2 : Z) :
  keeps_ordered keep ->
  c0 (rectangle cv) <= c2 (rectangle cv) ->
  c1 (rectangle cv) <= c3 (rectangle cv) ->
  hit_test x y (resize_handles cv) = None ->
  let d' := start_drag cv d x y in
  let cv1 := drag keep cv d' x1 y1 in
  let cv2 := drag keep cv1 d' x2 y2 in
  rectangle cv1 = translate (rectangle cv) (x1 - x) (y1 - y) /\
  rectangle cv2 = translate (rectangle cv) (x2 - x) (y2 - y).
Proof.
  intros Hk Hx Hy Hh. cbv zeta.
  unfold start_drag. rewrite Hh.
  unfold drag, put_rectangle. cbn [dragging rectangle].
  assert (E1 : keep (move_coords
                       (mkDragData (x - c0 (rectangle cv)) (y - c1 (rectangle cv))
                                   true (resizing d))
                       (rectangle cv) x1 y1)
               = translate (rectangle cv) (x1 - x) (y1 - y)).
  { rewrite Hk; unfold move_coords, translate; simpl; [f_equal | |]; lia. }
  rewrite E1. split; [reflexivity |].
  rewrite Hk; unfold move_coords, translate; simpl; [f_equal | |]; lia.
Qed.

Lemma press_then_motion_translates_witness :
  rectangle (drag keep_sorted canvas_400x300
                  (start_drag canvas_400x300 drag_data_init 200 100) 250 180)
  = mkCoords 150 180 550 480.
Proof.
  refine (proj1 (press_then_motion_translates keep_sorted canvas_400x300
                   drag_data_init 200 100 250 180 0 0
                   keep_sorted_ordered _ _ eq_refl)).
  - simpl. lia.
  - simpl. lia.
Defined.

(** X3.  After a motion that moves or resizes, the eight handles are the
    squares of side 10 around the four corners and the four edge midpoints
    of the rectangle the canvas now holds, in the dictionary's order. *)
Theorem handles_follow_rectangle
    (keep : Coords -> Coords) (cv : Canvas) (d : DragData) (x y : Z) :
  map fst (resize_handles cv) = handle_order ->
  dragging d = true \/ resizing d <> None ->
  let r := rectangle (drag keep cv d x y) in
  let mid_x := c0 r + (c2 r - c0 r) / 2 in
  let mid_y := c1 r + (c3 r - c1 r) / 2 in
  resize_handles (drag keep cv d x y) =
    [ (top_left, square_at (c0 r) (c1 r));
      (top_right, square_at (c2 r) (c1 r));
      (bottom_left, square_at (c0 r) (c3 r));
      (bottom_right, square_at (c2 r) (c3 r));
      (top_mid, square_at mid_x (c1 r));
      (bottom_mid, square_at mid_x (c3 r));
      (left_mid, square_at (c0 r) mid_y);
      (right_mid, square_at (c2 r) mid_y) ].
Proof.
  intros Hkeys Hmode. cbv zeta.
  assert (Hput : forall c,
    resize_handles (put_rectangle keep cv c) =
    initial_handles (c0 (keep c)) (c1 (keep c))
                    (c2 (keep c) - c0 (keep c)) (c3 (keep c) - c1 (keep c))).
  { intros c. unfold put_rectangle. simpl.
    now apply update_resize_handles_boxes. }
  assert (Hsq : forall r : Coords,
    initial_handles (c0 r) (c1 r) (c2 r - c0 r) (c3 r - c1 r) =
    [ (top_left, square_at (c0 r) (c1 r));
      (top_right, square_at (c2 r) (c1 r));
      (bottom_left, square_at (c0 r) (c3 r));
      (bottom_right, square_at (c2 r) (c3 r));
      (top_mid, square_at (c0 r + (c2 r - c0 r) / 2) (c1 r));
      (bottom_mid, square_at (c0 r + (c2 r - c0 r) / 2) (c3 r));
      (left_mid, square_at (c0 r) (c1 r + (c3 r - c1 r) / 2));
      (right_mid, square_at (c2 r) (c1 r + (c3 r - c1 r) / 2)) ]).
  { intros r. unfold initial_handles, square_at.
    change (HANDLE_SIZE / 2) with 5.
    repeat (f_equal; try lia). }
  unfold drag.
  destruct (dragging d).
  - rewrite Hput. unfold put_rectangle. cbn [rectangle]. apply Hsq.
  - destruct (resizing d) as [h |].
    + rewrite Hput. unfold put_rectangle. cbn [rectangle]. apply Hsq.
    + destruct Hmode as [H | H]; [discriminate H | now elim H].
Qed.

Lemma handles_follow_rectangle_witness :
  resize_handles (drag keep_sorted canvas_400x300
                       (mkDragData 0 0 false (Some bottom_right)) 700 500)
  = [ (top_left, square_at 100 100); (top_right, square_at 700 100);
      (bottom_left, square_at 100 500); (bottom_right, square_at 700 500);
      (top_mid, square_at 400 100); (bottom_mid, square_at 400 500);
      (left_mid, square_at 100 300); (right_mid, square_at 700 300) ].
Proof.
  refine (handles_follow_rectangle keep_sorted canvas_400x300
            (mkDragData 0 0 false (Some bottom_right)) 700 500 eq_refl _).
  right. discriminate.
Defined.

(** ** Release, keys and closing the session *)

(** X4.  After the button is released the next motion changes nothing:
    [stop_drag] clears both modes, and [drag] then leaves the canvas as it
    is, whatever gesture came before. *)
Theorem motion_after_release_changes_nothing
    (keep : Coords -> Coords) (x y : Z) (w : World) (cv : Canvas) :
  canvas (globals w) = Some cv ->
  let released := snd (pointer_release w) in
  dragging (drag_data (globals released)) = false /\
  resizing (drag_data (globals released)) = None /\
  pointer_motion keep x y released = (Some tt, released).
Proof.
  intros Hcv. destruct w as [g o]. destruct g. simpl in Hcv. subst.
  cbv zeta. repeat split; reflexivity.
Qed.

Lemma motion_after_release_changes_nothing_witness :
  pointer_motion keep_sorted 900 700
    (snd (pointer_release (press_after_escaped_drag keep_sorted)))
  = (Some tt, snd (pointer_release (press_after_escaped_drag keep_sorted))).
Proof.
  refine (proj2 (proj2 (motion_after_release_changes_nothing keep_sorted 900 700
            (press_after_escaped_drag keep_sorted)
            (mkCanvas (mkCoords 100 100 400 300)
                      (initial_handles 100 100 300 200)) _))).
  reflexivity.
Defined.

(** X5.  The key filter lets a key through, and changes nothing, exactly
    when it is not a key-down of Print Screen: any other virtual key, and
    any message that is not [WM_KEYDOWN] or [WM_SYSKEYDOWN], is passed on
    with the world as it was. *)
Theorem other_keys_pass_through
    (keep : Coords -> Coords) (msg vk mx my : Z) (monitors : list Monitor)
    (w : World) :
  let r := win32_event_filter keep msg vk mx my monitors w in
  let trigger := (msg = WM_KEYDOWN \/ msg = WM_SYSKEYDOWN) /\ vk = VK_SNAPSHOT in
  (fst r = Some true <-> ~ trigger) /\
  (~ trigger -> snd r = w).
Proof.
  cbv zeta. unfold win32_event_filter.
  destruct (((msg =? WM_KEYDOWN) || (msg =? WM_SYSKEYDOWN)) && (vk =? VK_SNAPSHOT))
    eqn:E.
  - apply andb_true_iff in E. destruct E as [E1 E2].
    apply orb_true_iff in E1. rewrite !Z.eqb_eq in E1. apply Z.eqb_eq in E2.
    split.
    + split; [| intros H; elim H; auto].
      unfold bind, ret.
      destruct (create_overlay keep mx my monitors w) as [[[] |] w'];
        simpl; discriminate.
    + intros H. elim H. auto.
  - assert (Hn : ~ ((msg = WM_KEYDOWN \/ msg = WM_SYSKEYDOWN) /\ vk = VK_SNAPSHOT)).
    { intros [[H | H] Hv]; subst; simpl in E; discriminate E. }
    unfold ret. simpl. repeat split; auto.
Qed.

Lemma other_keys_pass_through_witness :
  snd (win32_event_filter keep_sorted WM_KEYDOWN 0x41 10 10 [monitor_1280]
         (resized_session keep_sorted))
  = resized_session keep_sorted.
Proof.
  apply (proj2 (other_keys_pass_through keep_sorted WM_KEYDOWN 0x41 10 10
                  [monitor_1280] (resized_session keep_sorted))).
  intros [_ H]. discriminate H.
Defined.

(** X6.  With no monitor attached [create_overlay] raises at the first
    [min(...)].  By then the previous overlay has been destroyed; no window
    was made and the dialog global is as before. *)
Theorem no_monitors_aborts_session
    (keep : Coords -> Coords) (mx my : Z) (w : World) :
  let r := create_overlay keep mx my [] w in
  fst r = None /\
  fst (print_screen keep mx my [] w) = None /\
  overlay_window (globals (snd r)) = None /\
  canvas (globals (snd r)) = None /\
  dialog (globals (snd r)) = dialog (globals w) /\
  next_id (outside (snd r)) = next_id (outside w) /\
  toplevels (outside (snd r)) =
    match overlay_window (globals w) with
    | Some ov => without (ov_id ov) (toplevels (outside w))
    | None => toplevels (outside w)
    end.
Proof.
  cbv zeta.
  assert (H : fst (create_overlay keep mx my [] w) = None).
  { unfold create_overlay, destroy_overlay, tk_destroy, or_raise, bind,
      get_globals, get_outside, on_globals, on_outside, ret, raise.
    cbn [fst snd globals outside map py_min].
    destruct (overlay_window (globals w)); reflexivity. }
  split; [exact H |]. split.
  { unfold print_screen, win32_event_filter. simpl. unfold bind.
    destruct (create_overlay keep mx my [] w) as [[[] |] w'];
      simpl in *; [discriminate H | reflexivity]. }
  unfold create_overlay, destroy_overlay, tk_destroy, or_raise, bind,
    get_globals, get_outside, on_globals, on_outside, ret, raise.
  cbn [fst snd globals outside map py_min].
  destruct (overlay_window (globals w)); simpl; repeat split; reflexivity.
Qed.

Lemma not_alive_after_filter d (f : WinId -> bool) l :
  f d = false -> existsb (Nat.eqb d) (filter f l) = false.
Proof.
  intros Hf. induction l as [| a l IH]; simpl; [reflexivity |].
  destruct (f a) eqn:Ha; simpl; [| exact IH].
  rewrite IH, orb_false_r. apply Nat.eqb_neq. intros ->. congruence.
Qed.

Lemma filter_filter_comm {A} (f g : A -> bool) l :
  filter f (filter g l) = filter g (filter f l).
Proof.
  induction l as [| a l IH]; simpl; [reflexivity |].
  destruct (f a) eqn:Hf, (g a) eqn:Hg; simpl; rewrite ?Hf, ?Hg, IH; reflexivity.
Qed.

(** X7.  Escape closes the session from any state and never raises: the
    overlay and canvas globals are cleared, and neither the overlay window
    nor the dialog the global names exists afterwards.  The dialog global
    itself, [drag_data], the pending timers and the persisted configuration
    are left as they were. *)
Theorem escape_closes_session (w : World) :
  let r := on_press true w in
  fst r = Some tt /\
  overlay_window (globals (snd r)) = None /\
  canvas (globals (snd r)) = None /\
  (forall ov, overlay_window (globals w) = Some ov ->
              alive (ov_id ov) (outside (snd r)) = false) /\
  (forall d, dialog (globals w) = Some d -> alive d (outside (snd r)) = false) /\
  dialog (globals (snd r)) = dialog (globals w) /\
  drag_data (globals (snd r)) = drag_data (globals w) /\
  same_settings w (snd r).
Proof.
  cbv zeta. split; [| split; [| split; [| split; [| split; [| split; [| split]]]]]].
  8: apply (frames_on_press true w).
  all: unfold on_press, destroy_overlay, tk_destroy, bind, get_globals,
         on_globals, on_outside, ret, alive;
       cbn [fst snd globals outside];
       destruct (overlay_window (globals w)) as [ov0 |] eqn:Hov;
       cbn [fst snd globals outside dialog with_overlay];
       destruct (dialog (globals w)) as [d0 |] eqn:Hd;
       cbn [fst snd globals outside]; try reflexivity.
  all: try (intros ? [=]; subst; simpl).
  all: try discriminate.
  all: try (simpl; assumption).
  - rewrite filter_filter_comm. apply not_alive_after_filter.
    now rewrite Nat.eqb_refl.
  - apply not_alive_after_filter. now rewrite Nat.eqb_refl.
  - apply not_alive_after_filter. now rewrite Nat.eqb_refl.
  - apply not_alive_after_filter. now rewrite Nat.eqb_refl.
Qed.

Lemma escape_closes_session_witness :
  alive 1%nat (outside (snd (on_press true (resized_session keep_sorted)))) = false.
Proof.
  apply (proj1 (proj2 (proj2 (proj2 (proj2
           (escape_closes_session (resized_session keep_sorted))))))).
  reflexivity.
Defined.

(** X8.  The Cancel button does what Escape does, in every world in which
    a dialog has been shown. *)
Theorem cancel_is_escape (w : World) (d : WinId) :
  dialog (globals w) = Some d ->
  on_cancel w = on_press true w.
Proof.
  intros Hd.
  unfold on_cancel, on_press, destroy_overlay, tk_destroy, or_raise, bind,
    get_globals, on_globals, on_outside, ret.
  cbn [fst snd globals outside].
  destruct (overlay_window (globals w));
    cbn [fst snd globals outside dialog with_overlay];
    rewrite Hd; reflexivity.
Qed.

Lemma cancel_is_escape_witness :
  on_cancel (resized_session keep_sorted)
  = on_press true (resized_session keep_sorted).
Proof.
  apply (cancel_is_escape (resized_session keep_sorted) 1%nat).
  reflexivity.
Defined.

(** X9.  Print Screen never closes the dialog of the session it replaces
    and never touches a pending timer: a dialog window that existed before
    still exists afterwards, while the dialog global names a new window. *)
Theorem trigger_keeps_previous_dialog
    (keep : Coords -> Coords) (mx my : Z) (monitors : list Monitor)
    (w : World) (m : Monitor) (d : WinId) :
  current_monitor mx my monitors = Some m ->
  dialog (globals w) = Some d ->
  alive d (outside w) = true ->
  (forall ov, overlay_window (globals w) = Some ov -> ov_id ov <> d) ->
  let r := print_screen keep mx my monitors w in
  alive d (outside (snd r)) = true /\
  dialog (globals (snd r)) = Some (S (next_id (outside w))) /\
  timers (outside (snd r)) = timers (outside w).
Proof.
  intros Hm Hd Ha Hov.
  destruct (create_overlay_run keep mx my monitors w m Hm)
    as (Hr & _ & _ & _ & Hdlg & _ & Htop & _ & _ & Ht & _).
  unfold print_screen, win32_event_filter. simpl. unfold bind, ret.
  destruct (create_overlay keep mx my monitors w) as [[[] |] w'];
    simpl in *; try discriminate Hr.
  repeat split; auto.
  unfold alive in *. rewrite Htop. simpl.
  rewrite existsb_exists in Ha. destruct Ha as (k & Hk & Ek).
  apply Nat.eqb_eq in Ek. subst k.
  assert (Hin : In d match overlay_window (globals w) with
                     | Some ov => without (ov_id ov) (toplevels (outside w))
                     | None => toplevels (outside w)
                     end).
  { destruct (overlay_window (globals w)) as [ov |] eqn:E; [| exact Hk].
    unfold without. rewrite filter_In. split; [exact Hk |].
    apply negb_true_iff, Nat.eqb_neq. intros ->. now apply (Hov ov). }
  rewrite !orb_true_iff. right. right.
  apply existsb_exists. exists d. split; [exact Hin | apply Nat.eqb_refl].
Qed.

Lemma trigger_keeps_previous_dialog_witness :
  alive 1%nat (outside (snd (print_screen keep_sorted 10 10 [monitor_1280]
                               (resized_session keep_sorted)))) = true.
Proof.
  refine (proj1 (trigger_keeps_previous_dialog keep_sorted 10 10 [monitor_1280]
                   (resized_session keep_sorted) monitor_1280 1%nat
                   eq_refl eq_refl eq_refl _)).
  intros ov H. injection H as <-. discriminate.
Defined.

(** ** Capture, pointer arrow and delivery *)

(** With the windows the two globals name still there, [capture_screenshot]
    returns: this is the image and the world it leaves. *)
Lemma capture_screenshot_run rect p mx my w :
  window_usable (outside w) (option_map ov_id (overlay_window (globals w))) ->
  window_usable (outside w) (dialog (globals w)) ->
  let off := canvas_offset_x (globals w) in
  let img :=
    mkImage (mkCoords (c0 rect - off) (c1 rect) (c2 rect - off) (c3 rect))
      (if p && ((c0 rect - off <? mx) && (mx <? c2 rect - off) &&
                (c1 rect <? my) && (my <? c3 rect))
       then Some (mx - (c0 rect - off), my - c1 rect) else None) in
  capture_screenshot rect p mx my w =
    (Some img, mkWorld (globals w) (with_grabs (img :: grabs (outside w)) (outside w))).
Proof.
  intros Ho Hd. cbv zeta.
  unfold capture_screenshot, tk_withdraw, bind, get_globals, get_outside,
    on_outside, ret, raise.
  cbn [fst snd globals outside].
  destruct (overlay_window (globals w)) as [ov |]; simpl in Ho;
    [rewrite Ho |]; cbn [fst snd globals outside];
    (destruct (dialog (globals w)) as [d |]; simpl in Hd;
     [rewrite Hd |]; reflexivity).
Qed.

(** X10.  When the pointer is to be captured, the arrow is drawn exactly
    when the cursor lies strictly inside the grabbed box, and it is anchored
    at the cursor's position relative to the box's top left corner, which is
    then strictly inside the image.  A cursor on the border, or outside,
    leaves the image without an arrow. *)
Theorem capture_arrow_inside_image
    (rect : Coords) (p : bool) (mx my : Z) (w : World) :
  window_usable (outside w) (option_map ov_id (overlay_window (globals w))) ->
  window_usable (outside w) (dialog (globals w)) ->
  exists img,
    fst (capture_screenshot rect p mx my w) = Some img /\
    grabs (outside (snd (capture_screenshot rect p mx my w)))
      = img :: grabs (outside w) /\
    (arrow img <> None <->
     p = true /\ c0 (bbox img) < mx < c2 (bbox img) /\
     c1 (bbox img) < my < c3 (bbox img)) /\
    (forall a b, arrow img = Some (a, b) ->
       a = mx - c0 (bbox img) /\ b = my - c1 (bbox img) /\
       0 < a < width (bbox img) /\ 0 < b < height (bbox img)).
Proof.
  intros Ho Hd.
  rewrite (capture_screenshot_run rect p mx my w Ho Hd).
  eexists. split; [reflexivity |]. split; [reflexivity |].
  cbn [fst snd arrow bbox c0 c1 c2 c3].
  set (off := canvas_offset_x (globals w)).
  destruct p; cbn [andb].
  - destruct ((c0 rect - off <? mx) && (mx <? c2 rect - off) &&
              (c1 rect <? my) && (my <? c3 rect)) eqn:E.
    + rewrite !andb_true_iff, !Z.ltb_lt in E. split.
      * split; [intros _; repeat split; lia | discriminate].
      * intros a b [= <- <-]. unfold width, height. simpl. lia.
    + split.
      * split; [intros H; now elim H |].
        intros (_ & Hx & Hy). exfalso.
        assert (E' : (c0 rect - off <? mx) && (mx <? c2 rect - off) &&
                     (c1 rect <? my) && (my <? c3 rect) = true).
        { rewrite !andb_true_iff, !Z.ltb_lt. lia. }
        congruence.
      * intros a b H. discriminate H.
  - split.
    + split; [intros H; now elim H | intros [H _]; discriminate H].
    + intros a b H. discriminate H.
Qed.

Lemma capture_arrow_inside_image_witness :
  exists img,
    fst (capture_screenshot (mkCoords 100 100 700 500) true 650 450
           (resized_session keep_sorted)) = Some img /\
    arrow img = Some (550, 350).
Proof.
  destruct (capture_arrow_inside_image (mkCoords 100 100 700 500) true 650 450
              (resized_session keep_sorted) eq_refl eq_refl)
    as (img & Hi & _).
  exists img. split; [exact Hi |].
  vm_compute in Hi. injection Hi as <-. reflexivity.
Defined.

(** X11.  Right after a session start, a grab of canvas rectangle [rect]
    takes the box [rect] shifted left by [canvas_offset_x] and not shifted
    vertically, while the rectangle is shown at [rect] shifted by the
    overlay's origin [(min_x, min_y)].  So when some monitor starts left of
    zero the grabbed columns are the columns shown, and the grabbed rows
    are the rows shown moved by [- min_y]. *)
Theorem capture_region_after_session_start
    (keep : Coords -> Coords) (mx my : Z) (monitors : list Monitor)
    (w : World) (m : Monitor) (rect : Coords) (p : bool) (cx cy : Z) :
  current_monitor mx my monitors = Some m ->
  let w' := snd (create_overlay keep mx my monitors w) in
  exists ov img min_x min_y,
    overlay_window (globals w') = Some ov /\
    py_min (map m_x monitors) = Some min_x /\
    py_min (map m_y monitors) = Some min_y /\
    fst (capture_screenshot rect p cx cy w') = Some img /\
    on_desktop ov rect = translate rect min_x min_y /\
    c1 (bbox img) = c1 (on_desktop ov rect) - min_y /\
    c3 (bbox img) = c3 (on_desktop ov rect) - min_y /\
    (min_x < 0 ->
     c0 (bbox img) = c0 (on_desktop ov rect) /\
     c2 (bbox img) = c2 (on_desktop ov rect)) /\
    (0 <= min_x ->
     c0 (bbox img) = c0 rect - canvas_offset_x (globals w) /\
     c2 (bbox img) = c2 rect - canvas_offset_x (globals w)).
Proof.
  intros Hm. cbv zeta.
  destruct (create_overlay_run keep mx my monitors w m Hm)
    as (_ & Hoff & _ & (ov & Hov & Hid & Hx & Hy) & Hdlg & _ & Htop & _).
  cbv zeta in *.
  set (w' := snd (create_overlay keep mx my monitors w)) in *.
  assert (Ho : window_usable (outside w')
                 (option_map ov_id (overlay_window (globals w')))).
  { rewrite Hov. simpl. unfold alive. rewrite Htop, Hid. simpl.
    rewrite Nat.eqb_refl. now rewrite orb_true_r. }
  assert (Hd : window_usable (outside w') (dialog (globals w'))).
  { rewrite Hdlg. simpl. unfold alive. rewrite Htop. simpl.
    now rewrite Nat.eqb_refl. }
  exists ov. eexists. exists (ov_x ov), (ov_y ov).
  rewrite (capture_screenshot_run rect p cx cy w' Ho Hd).
  cbn [fst bbox c0 c1 c2 c3 on_desktop].
  rewrite Hoff. unfold offset_after. rewrite Hx.
  split; [exact Hov |]. split; [reflexivity |]. split; [exact Hy |].
  split; [reflexivity |]. split; [reflexivity |].
  cbn [bbox c0 c1 c2 c3 on_desktop].
  split; [lia |]. split; [lia |].
  destruct (ov_x ov <? 0) eqn:E.
  - apply Z.ltb_lt in E. split; intros; split; lia.
  - apply Z.ltb_ge in E. split; intros; split; (lia || reflexivity).
Qed.

Lemma capture_region_after_session_start_witness :
  exists ov img,
    overlay_window
      (globals (snd (create_overlay keep_sorted 10 10 monitors_left
                       (start_world "Desktop" None)))) = Some ov /\
    fst (capture_screenshot (mkCoords 2020 100 2420 400) false 0 0
           (snd (create_overlay keep_sorted 10 10 monitors_left
                   (start_world "Desktop" None)))) = Some img /\
    c0 (bbox img) = c0 (on_desktop ov (mkCoords 2020 100 2420 400)).
Proof.
  destruct (capture_region_after_session_start keep_sorted 10 10 monitors_left
              (start_world "Desktop" None) (mkMonitor 0 0 1920 1080)
              (mkCoords 2020 100 2420 400) false 0 0 eq_refl)
    as (ov & img & min_x & min_y & Hov & Hx & _ & Hi & _ & _ & _ & Hneg & _).
  exists ov, img. split; [exact Hov |]. split; [exact Hi |].
  apply Hneg. vm_compute in Hx. injection Hx as <-. lia.
Defined.

(** X12.  Each sink runs only when its option is set, and then depends on
    nothing but its own resource.  With neither option nothing happens.
    The clipboard alone never writes a file and does not look at the
    folder; the file alone never touches the clipboard and is written even
    while the clipboard is held by another process. *)
Theorem sinks_follow_options
    (img : Image) (folder ts : string) (w : World) :
  save_screenshot img false false folder ts w = (Some tt, w) /\
  files (outside (snd (save_screenshot img true false folder ts w)))
    = files (outside w) /\
  (clipboard_busy (outside w) = false ->
   fst (save_screenshot img true false folder ts w) = Some tt /\
   clipboard (outside (snd (save_screenshot img true false folder ts w)))
     = Some img) /\
  clipboard (outside (snd (save_screenshot img false true folder ts w)))
    = clipboard (outside w) /\
  (existsb (String.eqb folder) (folders (outside w)) = true ->
   fst (save_screenshot img false true folder ts w) = Some tt /\
   files (outside (snd (save_screenshot img false true folder ts w)))
     = (folder, ("screenshot_" ++ ts ++ ".png")%string, img)
       :: files (outside w)).
Proof.
  unfold save_screenshot, to_clipboard, to_file, bind, get_outside,
    on_outside, ret, raise.
  cbn [fst snd globals outside].
  destruct w as [g o].
  destruct o as [o_top o_nid o_vars o_cfg o_wr o_tm o_gr o_busy o_clip o_fold o_files].
  cbn.
  destruct o_busy; destruct (existsb (String.eqb folder) o_fold); cbn;
    repeat split; intros; try discriminate; reflexivity.
Qed.

Lemma sinks_follow_options_witness :
  files (outside (snd (save_screenshot picture false true "Desktop"
                         "20250203_120000" clipboard_held)))
  = [("Desktop", "screenshot_20250203_120000.png", picture)]%string.
Proof.
  apply (proj2 (proj2 (proj2 (proj2
           (sinks_follow_options picture "Desktop" "20250203_120000"
                                 clipboard_held))))).
  reflexivity.
Defined.

(** X13.  Save without the delay, when both windows exist and every sink
    asked for can be written: the rectangle is persisted, one image of the
    rectangle (shifted left by [canvas_offset_x]) is grabbed and handed to
    the sinks the options name, and the session is closed: overlay and
    canvas globals cleared, overlay window and dialog destroyed. *)
Theorem save_captures_and_closes
    (d : WinId) (mx my : Z) (ts : string) (w : World) (cv : Canvas)
    (vars : Options) (ov : Overlay) (dg : WinId) :
  canvas (globals w) = Some cv ->
  vars_lookup d (dialog_vars (outside w)) = Some vars ->
  delay_screenshot vars = false ->
  overlay_window (globals w) = Some ov ->
  alive (ov_id ov) (outside w) = true ->
  dialog (globals w) = Some dg ->
  alive dg (outside w) = true ->
  (save_clipboard vars = true -> clipboard_busy (outside w) = false) ->
  (save_folder vars = true ->
   existsb (String.eqb (folder_path vars)) (folders (outside w)) = true) ->
  let r := on_save d mx my ts w in
  let off := canvas_offset_x (globals w) in
  exists img,
    bbox img = mkCoords (c0 (rectangle cv) - off) (c1 (rectangle cv))
                        (c2 (rectangle cv) - off) (c3 (rectangle cv)) /\
    fst r = Some tt /\
    grabs (outside (snd r)) = img :: grabs (outside w) /\
    clipboard (outside (snd r)) =
      (if save_clipboard vars then Some img else clipboard (outside w)) /\
    files (outside (snd r)) =
      (if save_folder vars
       then (folder_path vars, ("screenshot_" ++ ts ++ ".png")%string, img)
            :: files (outside w)
       else files (outside w)) /\
    overlay_window (globals (snd r)) = None /\
    canvas (globals (snd r)) = None /\
    alive (ov_id ov) (outside (snd r)) = false /\
    alive dg (outside (snd r)) = false /\
    (config_writable (outside w) = true ->
     config_file (outside (snd r)) =
       Some (persisted (c0 (rectangle cv)) (c1 (rectangle cv))
                       (width (rectangle cv)) (height (rectangle cv))
                       (Some vars))).
Proof.
  intros Hcv Hv Hdelay Hov Hova Hdg Hdga Hclip Hfold. cbv zeta.
  rewrite (on_save_run d mx my ts w cv vars Hcv Hv), Hdelay.
  destruct w as [g o].
  destruct g as [g_ov g_cv g_off g_dd g_dlg g_w g_h g_f].
  destruct o as [o_top o_nid o_vars o_cfg o_wr o_tm o_gr o_busy o_clip o_fold o_files].
  cbn in Hcv, Hv, Hov, Hova, Hdg, Hdga, Hclip, Hfold.
  subst. unfold alive in Hova, Hdga. cbn in Hova, Hdga.
  unfold take_screenshot, vars_of, capture_screenshot, save_screenshot,
    to_clipboard, to_file, destroy_overlay, tk_withdraw, tk_destroy, or_raise,
    bind, get_globals, get_outside, on_globals, on_outside, ret, raise, alive.
  destruct o_wr; cbn; rewrite Hv; cbn; rewrite Hova; cbn;
    rewrite Hdga; cbn;
    (destruct (save_clipboard vars) eqn:Ec;
     [rewrite (Hclip eq_refl) |]; cbn;
     (destruct (save_folder vars) eqn:Ef; cbn;
      [rewrite (Hfold eq_refl) |]; cbn;
      exists (mkImage
                (mkCoords (c0 (rectangle cv) - g_off) (c1 (rectangle cv))
                          (c2 (rectangle cv) - g_off) (c3 (rectangle cv)))
                (if capture_pointer vars &&
                    ((c0 (rectangle cv) - g_off <? mx) &&
                     (mx <? c2 (rectangle cv) - g_off) &&
                     (c1 (rectangle cv) <? my) && (my <? c3 (rectangle cv)))
                 then Some (mx - (c0 (rectangle cv) - g_off),
                            my - c1 (rectangle cv))
                 else None));
      repeat split; try reflexivity; try discriminate;
      first [ apply not_alive_after_filter; now rewrite Nat.eqb_refl
            | rewrite filter_filter_comm;
              apply not_alive_after_filter; now rewrite Nat.eqb_refl ])).
Qed.

Lemma save_captures_and_closes_witness :
  exists img,
    bbox img = mkCoords 100 100 700 500 /\
    grabs (outside (snd (on_save 1%nat 10 10 "20250203_120000"
                           (resized_session keep_sorted)))) = [img].
Proof.
  destruct (save_captures_and_closes 1%nat 10 10 "20250203_120000"
              (resized_session keep_sorted)
              (mkCanvas (mkCoords 100 100 700 500)
                        (initial_handles 100 100 600 400))
              (mkOptions false true false "Desktop" false)
              (mkOverlay 0%nat 1280 800 0 0) 1%nat
              eq_refl eq_refl eq_refl eq_refl eq_refl eq_refl eq_refl)
    as (img & Hb & _ & Hg & _).
  - intros _. reflexivity.
  - intros H. discriminate H.
  - exists img. split; [exact Hb | exact Hg].
Defined.

(** X14.  Save without the delay when the target folder does not exist:
    the image has been grabbed, and written to the clipboard if that was
    asked for, when [screenshot.save] raises.  Nothing after it runs, so no
    file is written and the session is not closed: the overlay and canvas
    globals keep their values and no window is destroyed. *)
Theorem failed_file_sink_leaves_session_open
    (d : WinId) (mx my : Z) (ts : string) (w : World) (cv : Canvas)
    (vars : Options) (ov : Overlay) (dg : WinId) :
  canvas (globals w) = Some cv ->
  vars_lookup d (dialog_vars (outside w)) = Some vars ->
  delay_screenshot vars = false ->
  overlay_window (globals w) = Some ov ->
  alive (ov_id ov) (outside w) = true ->
  dialog (globals w) = Some dg ->
  alive dg (outside w) = true ->
  (save_clipboard vars = true -> clipboard_busy (outside w) = false) ->
  save_folder vars = true ->
  existsb (String.eqb (folder_path vars)) (folders (outside w)) = false ->
  let r := on_save d mx my ts w in
  let off := canvas_offset_x (globals w) in
  exists img,
    bbox img = mkCoords (c0 (rectangle cv) - off) (c1 (rectangle cv))
                        (c2 (rectangle cv) - off) (c3 (rectangle cv)) /\
    fst r = None /\
    grabs (outside (snd r)) = img :: grabs (outside w) /\
    clipboard (outside (snd r)) =
      (if save_clipboard vars then Some img else clipboard (outside w)) /\
    files (outside (snd r)) = files (outside w) /\
    overlay_window (globals (snd r)) = Some ov /\
    canvas (globals (snd r)) = Some cv /\
    toplevels (outside (snd r)) = toplevels (outside w).
Proof.
  intros Hcv Hv Hdelay Hov Hova Hdg Hdga Hclip Ef Hfold. cbv zeta.
  rewrite (on_save_run d mx my ts w cv vars Hcv Hv), Hdelay.
  destruct w as [g o].
  destruct g as [g_ov g_cv g_off g_dd g_dlg g_w g_h g_f].
  destruct o as [o_top o_nid o_vars o_cfg o_wr o_tm o_gr o_busy o_clip o_fold o_files].
  cbn in Hcv, Hv, Hov, Hova, Hdg, Hdga, Hclip, Hfold.
  subst. unfold alive in Hova, Hdga. cbn in Hova, Hdga.
  unfold take_screenshot, vars_of, capture_screenshot, save_screenshot,
    to_clipboard, to_file, destroy_overlay, tk_withdraw, tk_destroy, or_raise,
    bind, get_globals, get_outside, on_globals, on_outside, ret, raise, alive.
  destruct o_wr; cbn; rewrite Hv; cbn; rewrite Hova; cbn;
    rewrite Hdga; cbn;
    (destruct (save_clipboard vars) eqn:Ec;
     [rewrite (Hclip eq_refl) |]; cbn; rewrite Ef; cbn; rewrite Hfold; cbn;
     exists (mkImage
               (mkCoords (c0 (rectangle cv) - g_off) (c1 (rectangle cv))
                         (c2 (rectangle cv) - g_off) (c3 (rectangle cv)))
               (if capture_pointer vars &&
                   ((c0 (rectangle cv) - g_off <? mx) &&
                    (mx <? c2 (rectangle cv) - g_off) &&
                    (c1 (rectangle cv) <? my) && (my <? c3 (rectangle cv)))
                then Some (mx - (c0 (rectangle cv) - g_off),
                           my - c1 (rectangle cv))
                else None));
     repeat split; reflexivity).
Qed.

Lemma failed_file_sink_leaves_session_open_witness :
  fst (on_save 1%nat 10 10 "20250203_120000"
         (first_session keep_sorted
            (persisted 100 100 300 200
               (Some (mkOptions false true true "Missing" false)))
            10 10 [monitor_1280])) = None.
Proof.
  destruct (failed_file_sink_leaves_session_open 1%nat 10 10 "20250203_120000"
              (first_session keep_sorted
                 (persisted 100 100 300 200
                    (Some (mkOptions false true true "Missing" false)))
                 10 10 [monitor_1280])
              (mkCanvas (mkCoords 100 100 400 300)
                        (initial_handles 100 100 300 200))
              (mkOptions false true true "Missing" false)
              (mkOverlay 0%nat 1280 800 0 0) 1%nat
              eq_refl eq_refl eq_refl eq_refl eq_refl eq_refl eq_refl)
    as (img & _ & Hr & _).
  - intros _. reflexivity.
  - reflexivity.
  - reflexivity.
  - exact Hr.
Defined.

(** ** Monitors and the overlay window *)

Lemma fold_min_spec (l : list Z) (a : Z) :
  (fold_left Z.min l a <= a /\ forall z, In z l -> fold_left Z.min l a <= z) /\
  (fold_left Z.min l a = a \/ In (fold_left Z.min l a) l).
Proof.
  revert a. induction l as [| b l IH]; intros a; simpl.
  - repeat split; [lia | intros z [] | now left].
  - destruct (IH (Z.min a b)) as [[H1 H2] H3]. repeat split.
    + lia.
    + intros z [<- | Hz]; [lia | now apply H2].
    + destruct H3 as [H3 | H3]; [| right; now right].
      rewrite H3. destruct (Z.min_spec a b) as [[_ E] | [_ E]]; rewrite E;
        [now left | right; now left].
Qed.

Lemma fold_max_spec (l : list Z) (a : Z) :
  (a <= fold_left Z.max l a /\ forall z, In z l -> z <= fold_left Z.max l a) /\
  (fold_left Z.max l a = a \/ In (fold_left Z.max l a) l).
Proof.
  revert a. induction l as [| b l IH]; intros a; simpl.
  - repeat split; [lia | intros z [] | now left].
  - destruct (IH (Z.max a b)) as [[H1 H2] H3]. repeat split.
    + lia.
    + intros z [<- | Hz]; [lia | now apply H2].
    + destruct H3 as [H3 | H3]; [| right; now right].
      rewrite H3. destruct (Z.max_spec a b) as [[_ E] | [_ E]]; rewrite E;
        [right; now left | now left].
Qed.

Lemma py_min_spec l v :
  py_min l = Some v -> (forall z, In z l -> v <= z) /\ In v l.
Proof.
  destruct l as [| a l]; simpl; [discriminate |]. intros [= <-].
  destruct (fold_min_spec l a) as [[H1 H2] H3]. split.
  - intros z [<- | Hz]; auto.
  - destruct H3 as [-> | H3]; [now left | now right].
Qed.

Lemma py_max_spec l v :
  py_max l = Some v -> (forall z, In z l -> z <= v) /\ In v l.
Proof.
  destruct l as [| a l]; simpl; [discriminate |]. intros [= <-].
  destruct (fold_max_spec l a) as [[H1 H2] H3]. split.
  - intros z [<- | Hz]; auto.
  - destruct H3 as [-> | H3]; [now left | now right].
Qed.

(** More of the world [create_overlay] leaves: the overlay's geometry, the
    two size globals and the variables of the new dialog. *)
Lemma create_overlay_run_more keep mx my monitors w m :
  current_monitor mx my monitors = Some m ->
  let r := create_overlay keep mx my monitors w in
  let off := offset_after monitors (canvas_offset_x (globals w)) in
  let nid := next_id (outside w) in
  (exists min_x min_y max_x max_y,
     py_min (map m_x monitors) = Some min_x /\
     py_min (map m_y monitors) = Some min_y /\
     py_max (map (fun m => m_x m + m_width m) monitors) = Some max_x /\
     py_max (map (fun m => m_y m + m_height m) monitors) = Some max_y /\
     overlay_window (globals (snd r)) =
       Some (mkOverlay nid (max_x - min_x) (max_y - min_y) min_x min_y)) /\
  (RECTANGLE_DEFAULT_WIDTH (globals (snd r)),
   RECTANGLE_DEFAULT_HEIGHT (globals (snd r))) =
    (let '(_, _, W, H) := initial_geometry m off (load_rectangle_config w) in
     (W, H)) /\
  vars_lookup (S nid) (dialog_vars (outside (snd r))) =
    Some (dict_get (cfg_dialog (load_config w))
            (mkOptions false true false (screenshot_folder (globals w)) false)) /\
  screenshot_folder (globals (snd r)) = screenshot_folder (globals w).
Proof.
  intros Hm.
  destruct monitors as [| m0 rest]; [discriminate Hm |].
  unfold create_overlay, destroy_overlay, show_dialog, tk_destroy, or_raise,
    bind, get_globals, get_outside, on_globals, on_outside, ret, raise,
    py_min, py_max, offset_after.
  rewrite Hm.
  cbn [map fst snd globals outside py_min].
  destruct (overlay_window (globals w)) as [ov0 |];
    cbn [globals outside];
    destruct (fold_left Z.min (map m_x rest) (m_x m0) <? 0);
    (rewrite (load_rectangle_config_eq w) by reflexivity);
    cbn [canvas_offset_x globals with_offset with_overlay];
    destruct (initial_geometry _ _ _) as [[[rx ry] W] H];
    cbn; rewrite Nat.eqb_refl;
    (split; [do 4 eexists; repeat split; reflexivity |]);
    repeat split; unfold load_config; cbn; reflexivity.
Qed.

(** X15.  The monitor chosen at session start is one of the attached
    monitors: the first, in enumeration order, whose half-open box holds
    the pointer, and the first monitor of the list when none does.  There
    is no choice only when no monitor is attached. *)
Theorem current_monitor_spec (mx my : Z) (monitors : list Monitor) :
  match current_monitor mx my monitors with
  | Some m =>
      In m monitors /\
      ((monitor_has mx my m = true /\
        exists pre post,
          monitors = pre ++ m :: post /\
          forall m', In m' pre -> monitor_has mx my m' = false) \/
       ((forall m', In m' monitors -> monitor_has mx my m' = false) /\
        hd_error monitors = Some m))
  | None => monitors = []
  end.
Proof.
  unfold current_monitor.
  assert (Hfind : forall l,
    match find (monitor_has mx my) l with
    | Some m => monitor_has mx my m = true /\
                exists pre post, l = pre ++ m :: post /\
                  forall m', In m' pre -> monitor_has mx my m' = false
    | None => forall m', In m' l -> monitor_has mx my m' = false
    end).
  { induction l as [| a l IH]; simpl; [intros m' [] |].
    destruct (monitor_has mx my a) eqn:Ha.
    - split; [exact Ha |]. exists [], l. split; [reflexivity | intros m' []].
    - destruct (find (monitor_has mx my) l) as [m |].
      + destruct IH as (Hm & pre & post & -> & Hpre). split; [exact Hm |].
        exists (a :: pre), post. split; [reflexivity |].
        intros m' [<- | H']; auto.
      + intros m' [<- | H']; auto. }
  specialize (Hfind monitors).
  destruct (find (monitor_has mx my) monitors) as [m |].
  - destruct Hfind as (Hm & pre & post & E & Hpre). split.
    + rewrite E. apply in_or_app. right. now left.
    + left. split; [exact Hm |]. now exists pre, post.
  - destruct monitors as [| a l]; simpl; [reflexivity |].
    split; [now left |]. right. split; [exact Hfind | reflexivity].
Qed.

(** X16.  The overlay window is the smallest box that holds every monitor:
    each monitor lies within it, and each of its four sides is the side of
    some monitor. *)
Theorem overlay_covers_all_monitors
    (keep : Coords -> Coords) (mx my : Z) (monitors : list Monitor)
    (w : World) (m : Monitor) :
  current_monitor mx my monitors = Some m ->
  exists ov,
    overlay_window (globals (snd (create_overlay keep mx my monitors w)))
      = Some ov /\
    (forall m', In m' monitors ->
       ov_x ov <= m_x m' /\
       m_x m' + m_width m' <= ov_x ov + ov_width ov /\
       ov_y ov <= m_y m' /\
       m_y m' + m_height m' <= ov_y ov + ov_height ov) /\
    (exists m', In m' monitors /\ m_x m' = ov_x ov) /\
    (exists m', In m' monitors /\ m_y m' = ov_y ov) /\
    (exists m', In m' monitors /\ m_x m' + m_width m' = ov_x ov + ov_width ov) /\
    (exists m', In m' monitors /\ m_y m' + m_height m' = ov_y ov + ov_height ov).
Proof.
  intros Hm.
  destruct (create_overlay_run_more keep mx my monitors w m Hm)
    as ((min_x & min_y & max_x & max_y & Hx & Hy & HX & HY & Hov) & _).
  cbv zeta in Hov. rewrite Hov. eexists. split; [reflexivity |].
  cbn [ov_x ov_y ov_width ov_height].
  destruct (py_min_spec _ _ Hx) as [Hx1 Hx2].
  destruct (py_min_spec _ _ Hy) as [Hy1 Hy2].
  destruct (py_max_spec _ _ HX) as [HX1 HX2].
  destruct (py_max_spec _ _ HY) as [HY1 HY2].
  split; [| split; [| split; [| split]]].
  - intros m' Hin.
    pose proof (Hx1 _ (in_map m_x _ _ Hin)).
    pose proof (Hy1 _ (in_map m_y _ _ Hin)).
    pose proof (HX1 _ (in_map (fun m => m_x m + m_width m) _ _ Hin)).
    pose proof (HY1 _ (in_map (fun m => m_y m + m_height m) _ _ Hin)).
    simpl in *. lia.
  - apply in_map_iff in Hx2. destruct Hx2 as (m' & E & Hin). eauto.
  - apply in_map_iff in Hy2. destruct Hy2 as (m' & E & Hin). eauto.
  - apply in_map_iff in HX2. destruct HX2 as (m' & E & Hin).
    exists m'. split; [exact Hin | lia].
  - apply in_map_iff in HY2. destruct HY2 as (m' & E & Hin).
    exists m'. split; [exact Hin | lia].
Qed.

Lemma overlay_covers_all_monitors_witness :
  exists ov,
    overlay_window (globals (snd (create_overlay keep_sorted 10 10
                                    monitors_stacked
                                    (start_world "Desktop" None)))) = Some ov /\
    ov_y ov <= -1080.
Proof.
  destruct (overlay_covers_all_monitors keep_sorted 10 10 monitors_stacked
              (start_world "Desktop" None) (mkMonitor 0 0 1920 1080) eq_refl)
    as (ov & Hov & Hall & _).
  exists ov. split; [exact Hov |].
  apply (Hall (mkMonitor 0 (-1080) 1920 1080)). simpl. auto.
Defined.

Lemma current_monitor_spec_witness :
  In (mkMonitor 1920 0 1920 1080) monitors_side_by_side.
Proof.
  exact (proj1 (current_monitor_spec 2500 500 monitors_side_by_side)).
Defined.

(** ** Geometry and options at session start *)

(** X17.  Where the overlay shows canvas points at the desktop place the
    script takes them for (the topmost monitor starts at y = 0 and the x
    offset is current), the rectangle a session starts from is shown with
    both corners inside the monitor under the pointer, whether the loaded
    numbers passed the check or were replaced by the reset rectangle. *)
Theorem initial_rectangle_shown_inside_monitor
    (keep : Coords -> Coords) (mx my : Z) (monitors : list Monitor)
    (w : World) (m : Monitor) :
  current_monitor mx my monitors = Some m ->
  0 <= m_width m -> 0 <= m_height m ->
  offsets_agree monitors (canvas_offset_x (globals w)) ->
  exists ov x y W H,
    overlay_window (globals (snd (create_overlay keep mx my monitors w)))
      = Some ov /\
    canvas (globals (snd (create_overlay keep mx my monitors w)))
      = Some (canvas_of keep (x, y, W, H)) /\
    m_x m <= c0 (on_desktop ov (mkCoords x y (x + W) (y + H)))
          <= m_x m + m_width m /\
    m_y m <= c1 (on_desktop ov (mkCoords x y (x + W) (y + H)))
          <= m_y m + m_height m /\
    m_x m <= c2 (on_desktop ov (mkCoords x y (x + W) (y + H)))
          <= m_x m + m_width m /\
    m_y m <= c3 (on_desktop ov (mkCoords x y (x + W) (y + H)))
          <= m_y m + m_height m.
Proof.
  intros Hm Hw Hh Hagree.
  destruct (create_overlay_shown keep mx my monitors w m Hm Hagree)
    as (ov & _ & Hov & Ey & _ & Hcv).
  destruct (load_rectangle_config w) as [[[x y] W] H].
  exists ov. rewrite Hcv. unfold initial_geometry.
  destruct (rect_config_valid m (- ov_x ov) x y W H) eqn:Hv; cbn [negb].
  - exists x, y, W, H. split; [exact Hov |]. split; [reflexivity |].
    apply (valid_iff_corners_inside m ov x y W H Ey) in Hv.
    unfold corners_inside in Hv. lia.
  - do 4 eexists. split; [exact Hov |]. split; [reflexivity |].
    unfold on_desktop. cbn [c0 c1 c2 c3]. rewrite Ey.
    repeat match goal with |- _ /\ _ => split end;
      Z.div_mod_to_equations; lia.
Qed.

Lemma initial_rectangle_shown_inside_monitor_witness :
  exists ov x y W H,
    canvas (globals (snd (create_overlay keep_sorted 10 10 [monitor_1280]
              (start_world "Desktop" (Some (persisted 2000 100 300 200 None))))))
      = Some (canvas_of keep_sorted (x, y, W, H)) /\
    0 <= c0 (on_desktop ov (mkCoords x y (x + W) (y + H))) <= 1280.
Proof.
  destruct (initial_rectangle_shown_inside_monitor keep_sorted 10 10
              [monitor_1280]
              (start_world "Desktop" (Some (persisted 2000 100 300 200 None)))
              monitor_1280 eq_refl)
    as (ov & x & y & W & H & _ & Hc & Hin & _).
  - simpl. lia.
  - simpl. lia.
  - split; [reflexivity |]. exists 0. split; [reflexivity | now right].
  - exists ov, x, y, W, H. split; [exact Hc | exact Hin].
Defined.

(** X18.  Without a configuration file the loaded geometry is x 0, y 0,
    width 0, height 0, not the 900 by 600 of the two size globals.  Where
    the overlay shows canvas points at the desktop place the script takes
    them for, the session then starts from the empty rectangle
    [{0,0,0,0}] when the monitor under the pointer holds the overlay's top
    left corner, which is where that rectangle is shown, and from a
    rectangle centred on that monitor and half its size otherwise.  The new
    dialog starts with only "Save to clipboard" ticked and the desktop
    folder. *)
Theorem first_run_starts_empty_or_centred
    (keep : Coords -> Coords) (mx my : Z) (monitors : list Monitor)
    (w : World) (m : Monitor) :
  keeps_ordered keep ->
  config_file (outside w) = None ->
  current_monitor mx my monitors = Some m ->
  0 <= m_width m -> 0 <= m_height m ->
  offsets_agree monitors (canvas_offset_x (globals w)) ->
  exists ov cv d,
    load_rectangle_config w = (0, 0, 0, 0) /\
    overlay_window (globals (snd (create_overlay keep mx my monitors w)))
      = Some ov /\
    canvas (globals (snd (create_overlay keep mx my monitors w))) = Some cv /\
    (monitor_has (ov_x ov) (ov_y ov) m = true ->
     rectangle cv = mkCoords 0 0 0 0) /\
    (monitor_has (ov_x ov) (ov_y ov) m = false ->
     centred_on m (on_desktop ov (rectangle cv))) /\
    dialog (globals (snd (create_overlay keep mx my monitors w))) = Some d /\
    vars_lookup d
      (dialog_vars (outside (snd (create_overlay keep mx my monitors w))))
      = Some (mkOptions false true false (screenshot_folder (globals w)) false).
Proof.
  intros Hk Hcfg Hm Hw Hh Hagree.
  destruct (create_overlay_shown keep mx my monitors w m Hm Hagree)
    as (ov & _ & Hov & Ey & _ & Hcv).
  destruct (create_overlay_run keep mx my monitors w m Hm)
    as (_ & _ & _ & _ & Hdlg & _).
  destruct (create_overlay_run_more keep mx my monitors w m Hm)
    as (_ & _ & Hvars & _).
  cbv zeta in Hdlg, Hvars.
  assert (Hload : load_rectangle_config w = (0, 0, 0, 0)).
  { unfold load_rectangle_config, load_config. rewrite Hcfg. reflexivity. }
  rewrite Hload in Hcv. unfold initial_geometry in Hcv.
  assert (Hsame : rect_config_valid m (- ov_x ov) 0 0 0 0
                  = monitor_has (ov_x ov) (ov_y ov) m).
  { unfold rect_config_valid, monitor_has. rewrite Ey.
    replace (0 - - ov_x ov) with (ov_x ov) by lia.
    replace (0 + 0 - - ov_x ov) with (ov_x ov) by lia.
    replace (0 + 0) with 0 by lia.
    destruct (m_x m <=? ov_x ov), (ov_x ov <? m_x m + m_width m),
             (m_y m <=? 0), (0 <? m_y m + m_height m); reflexivity. }
  rewrite Hsame in Hcv.
  exists ov. eexists. eexists.
  split; [exact Hload |]. split; [exact Hov |]. split; [exact Hcv |].
  split; [| split; [| split; [exact Hdlg |]]].
  - intros Hin. rewrite Hin. cbn [negb canvas_of rectangle].
    apply Hk; simpl; lia.
  - intros Hout. rewrite Hout. cbn [negb canvas_of rectangle].
    rewrite Hk.
    + apply (reset_shown_centred m ov Ey).
    + simpl. pose proof (Z.div_pos (m_width m) 2 Hw). lia.
    + simpl. pose proof (Z.div_pos (m_height m) 2 Hh). lia.
  - rewrite Hvars. unfold load_config. rewrite Hcfg. reflexivity.
Qed.

Lemma first_run_starts_empty_or_centred_witness :
  exists cv,
    canvas (globals (snd (create_overlay keep_sorted 10 10 [monitor_1280]
                            (start_world "Desktop" None)))) = Some cv /\
    rectangle cv = mkCoords 0 0 0 0.
Proof.
  destruct (first_run_starts_empty_or_centred keep_sorted 10 10 [monitor_1280]
              (start_world "Desktop" None) monitor_1280
              keep_sorted_ordered eq_refl eq_refl)
    as (ov & cv & d & _ & Hov & Hcv & Hin & _).
  - simpl. lia.
  - simpl. lia.
  - split; [reflexivity |]. exists 0. split; [reflexivity | now right].
  - exists cv. split; [exact Hcv |]. apply Hin.
    vm_compute in Hov. injection Hov as <-. reflexivity.
Defined.

(** X19.  [create_overlay] overwrites the two size globals with the size
    of the rectangle it starts from.  A configuration file whose
    ["rectangle"] object lacks the width and height keys is therefore
    loaded with the size of the last session's starting rectangle, not with
    900 by 600; missing x and y keys load as 0. *)
Theorem missing_size_keys_load_previous_size
    (keep : Coords -> Coords) (mx my : Z) (monitors : list Monitor)
    (w : World) (m : Monitor) (x y : option Z) (opts : option Options)
    (w2 : World) :
  current_monitor mx my monitors = Some m ->
  let w1 := snd (create_overlay keep mx my monitors w) in
  let '(_, _, W, H) :=
    initial_geometry m (canvas_offset_x (globals w1)) (load_rectangle_config w) in
  RECTANGLE_DEFAULT_WIDTH (globals w2) = RECTANGLE_DEFAULT_WIDTH (globals w1) ->
  RECTANGLE_DEFAULT_HEIGHT (globals w2) = RECTANGLE_DEFAULT_HEIGHT (globals w1) ->
  config_file (outside w2)
    = Some (mkConfig (Some (mkRectConfig x y None None)) opts) ->
  RECTANGLE_DEFAULT_WIDTH (globals w1) = W /\
  RECTANGLE_DEFAULT_HEIGHT (globals w1) = H /\
  load_rectangle_config w2 = (dict_get x 0, dict_get y 0, W, H).
Proof.
  intros Hm. cbv zeta.
  destruct (create_overlay_run keep mx my monitors w m Hm) as (_ & Hoff & _).
  destruct (create_overlay_run_more keep mx my monitors w m Hm)
    as (_ & Hsize & _).
  cbv zeta in Hoff, Hsize. rewrite Hoff.
  destruct (initial_geometry m _ (load_rectangle_config w)) as [[[rx ry] W] H].
  injection Hsize as HW HH.
  intros Ew Eh Hcfg. split; [exact HW |]. split; [exact HH |].
  unfold load_rectangle_config, load_config. rewrite Hcfg. cbn.
  now rewrite Ew, Eh, HW, HH.
Qed.

Lemma missing_size_keys_load_previous_size_witness :
  load_rectangle_config
    (mkWorld (globals (first_session keep_sorted (persisted 100 100 300 200 None)
                                     10 10 [monitor_1280]))
             (mkOutside [] 0%nat []
                        (Some (mkConfig (Some (mkRectConfig None None None None))
                                        None))
                        true [] [] false None [] []))
  = (0, 0, 300, 200).
Proof.
  exact (proj2 (proj2 (missing_size_keys_load_previous_size keep_sorted 10 10
           [monitor_1280]
           (start_world "Desktop" (Some (persisted 100 100 300 200 None)))
           monitor_1280 None None None
           (mkWorld (globals (first_session keep_sorted
                                (persisted 100 100 300 200 None)
                                10 10 [monitor_1280]))
                    (mkOutside [] 0%nat []
                       (Some (mkConfig (Some (mkRectConfig None None None None))
                                       None))
                       true [] [] false None [] []))
           eq_refl eq_refl eq_refl eq_refl))).
Defined.

(** ** The configuration file *)

(** X20.  [save_rectangle_config] never raises.  When the file can be
    written, the four numbers are what [load_rectangle_config] returns next
    and the dialog options of the file are as before; when it cannot,
    nothing changes.  The globals are never touched. *)
Theorem save_rectangle_config_round_trip (x y W H : Z) (w : World) :
  let r := save_rectangle_config x y W H w in
  fst r = Some tt /\
  globals (snd r) = globals w /\
  (config_writable (outside w) = true ->
   load_rectangle_config (snd r) = (x, y, W, H) /\
   cfg_dialog (load_config (snd r)) = cfg_dialog (load_config w)) /\
  (config_writable (outside w) = false -> snd r = w).
Proof.
  cbv zeta. unfold save_rectangle_config, save_config, on_outside.
  cbn [fst snd globals outside].
  destruct w as [g o]. cbn [globals outside].
  destruct (config_writable o) eqn:Hw.
  - repeat split; try discriminate.
  - repeat split; try discriminate.
Qed.

Lemma save_rectangle_config_round_trip_witness :
  load_rectangle_config
    (snd (save_rectangle_config 10 20 300 400 (start_world "Desktop" None)))
  = (10, 20, 300, 400).
Proof.
  apply (proj1 (proj2 (proj2 (save_rectangle_config_round_trip 10 20 300 400
                                 (start_world "Desktop" None))))).
  reflexivity.
Defined.

(** X21.  The options of the dialog whose Save was pressed are the options
    the next session's dialog starts with, provided the configuration file
    could be written. *)
Theorem options_persist_across_sessions
    (keep : Coords -> Coords) (d : WinId) (mx0 my0 : Z) (ts : string)
    (mx my : Z) (monitors : list Monitor) (w : World) (cv : Canvas)
    (vars : Options) (m : Monitor) :
  canvas (globals w) = Some cv ->
  vars_lookup d (dialog_vars (outside w)) = Some vars ->
  config_writable (outside w) = true ->
  current_monitor mx my monitors = Some m ->
  let saved := snd (on_save d mx0 my0 ts w) in
  let w' := snd (create_overlay keep mx my monitors saved) in
  exists d',
    dialog (globals w') = Some d' /\
    vars_lookup d' (dialog_vars (outside w')) = Some vars.
Proof.
  intros Hcv Hv Hw Hm. cbv zeta.
  destruct (on_save_persists d mx0 my0 ts w cv vars Hcv Hv Hw) as (Hcfg & _).
  cbv zeta in Hcfg.
  set (saved := snd (on_save d mx0 my0 ts w)) in *.
  destruct (create_overlay_run keep mx my monitors saved m Hm)
    as (_ & _ & _ & _ & Hdlg & _).
  destruct (create_overlay_run_more keep mx my monitors saved m Hm)
    as (_ & _ & Hvars & _).
  cbv zeta in Hdlg, Hvars.
  eexists. split; [exact Hdlg |].
  rewrite Hvars. unfold load_config. rewrite Hcfg. reflexivity.
Qed.

Lemma options_persist_across_sessions_witness :
  exists d',
    dialog (globals (snd (create_overlay keep_sorted 10 10 [monitor_1280]
                            armed_session))) = Some d' /\
    vars_lookup d'
      (dialog_vars (outside (snd (create_overlay keep_sorted 10 10 [monitor_1280]
                                    armed_session))))
      = Some delay_options.
Proof.
  exact (options_persist_across_sessions keep_sorted 1%nat 10 10
           "20250203_120000" 10 10 [monitor_1280]
           (first_session keep_sorted
              (persisted 100 100 300 200 (Some delay_options)) 10 10
              [monitor_1280])
           (mkCanvas (mkCoords 100 100 400 300)
                     (initial_handles 100 100 300 200))
           delay_options monitor_1280 eq_refl eq_refl eq_refl eq_refl).
Defined.

(** ** Dialog placement *)

(** X22.  The dialog is put below the rectangle, 100 plus half the
    monitor's width to the left of the rectangle's left edge, and is pulled
    back so that it never reaches past the right or the bottom edge of the
    monitor.  Where it fits it is left at the computed place; nothing keeps
    it from starting left of or above the monitor. *)
Theorem dialog_never_passes_right_or_bottom
    (m : Monitor) (rect_x rect_y H : Z) :
  let '(dialog_x, dialog_y) := dialog_position m rect_x rect_y H in
  dialog_x + DIALOG_WIDTH <= m_x m + m_width m /\
  dialog_y + DIALOG_HEIGHT <= m_y m + m_height m /\
  dialog_x = Z.min (rect_x - m_width m / 2 - 100)
                   (m_x m + m_width m - DIALOG_WIDTH) /\
  dialog_y = Z.min (rect_y + 20 + H) (m_y m + m_height m - DIALOG_HEIGHT).
Proof.
  unfold dialog_position.
  destruct (rect_x - m_width m / 2 - 100 + DIALOG_WIDTH >? m_x m + m_width m)
    eqn:Ex;
    destruct (rect_y + 20 + H + DIALOG_HEIGHT >? m_y m + m_height m) eqn:Ey;
    rewrite Z.gtb_ltb in Ex, Ey;
    [ apply Z.ltb_lt in Ex; apply Z.ltb_lt in Ey
    | apply Z.ltb_lt in Ex; apply Z.ltb_ge in Ey
    | apply Z.ltb_ge in Ex; apply Z.ltb_lt in Ey
    | apply Z.ltb_ge in Ex; apply Z.ltb_ge in Ey ];
    repeat split; lia.
Qed.

(** ** More than one timer *)

(** X23.  Save stays available while a timer is pending: a second Save
    with the delay ticked starts a second timer next to the first, for the
    same rectangle, and nothing is grabbed by either Save. *)
Theorem second_save_starts_second_timer
    (d : WinId) (mx my mx' my' : Z) (ts ts' : string) (w : World)
    (cv : Canvas) (vars : Options) :
  canvas (globals w) = Some cv ->
  vars_lookup d (dialog_vars (outside w)) = Some vars ->
  delay_screenshot vars = true ->
  let w1 := snd (on_save d mx my ts w) in
  let r := on_save d mx' my' ts' w1 in
  fst r = Some tt /\
  timers (outside (snd r)) =
    mkTimer (rectangle cv) d :: mkTimer (rectangle cv) d :: timers (outside w) /\
  grabs (outside (snd r)) = grabs (outside w).
Proof.
  intros Hcv Hv Hd. cbv zeta.
  destruct w as [g o].
  destruct g as [g_ov g_cv g_off g_dd g_dlg g_w g_h g_f].
  destruct o as [o_top o_nid o_vars o_cfg o_wr o_tm o_gr o_busy o_clip o_fold o_files].
  cbn in Hcv, Hv. subst g_cv.
  unfold on_save, vars_of, save_config, or_raise, bind, get_globals,
    get_outside, on_globals, on_outside, ret, raise.
  destruct o_wr; cbn; rewrite Hv; cbn; rewrite Hd; cbn; rewrite Hv; cbn;
    rewrite Hd; cbn; repeat split; reflexivity.
Qed.

Lemma second_save_starts_second_timer_witness :
  List.length (timers (outside (snd (on_save 1%nat 10 10 "20250203_120001"
                                  armed_session)))) = 2%nat.
Proof.
  destruct (second_save_starts_second_timer 1%nat 10 10 10 10
              "20250203_120000" "20250203_120001"
              (first_session keep_sorted
                 (persisted 100 100 300 200 (Some delay_options)) 10 10
                 [monitor_1280])
              (mkCanvas (mkCoords 100 100 400 300)
                        (initial_handles 100 100 300 200))
              delay_options eq_refl eq_refl eq_refl)
    as (_ & Ht & _).
  unfold armed_session. rewrite Ht. reflexivity.
Defined.

(** X24.  A timer that fires removes itself and no other: the pending
    timers afterwards are the ones before without the one that fired,
    whatever its closure did.  An index at which no timer is pending
    changes nothing. *)
Theorem firing_removes_only_that_timer
    (n : nat) (mx my : Z) (ts : string) (w : World) :
  let r := timer_fires n mx my ts w in
  (n < List.length (timers (outside w)))%nat ->
  fst r = Some tt /\
  timers (outside (snd r)) = remove_nth n (timers (outside w)) /\
  S (List.length (timers (outside (snd r)))) = List.length (timers (outside w)).
Proof.
  cbv zeta. intros Hn.
  destruct (nth_error (timers (outside w)) n) as [t |] eqn:Ht;
    [| apply nth_error_None in Ht; lia].
  unfold timer_fires, or_raise, bind, get_outside, on_outside, ret.
  cbn [fst snd globals outside]. rewrite Ht. cbn [fst snd globals outside].
  match goal with |- context [take_screenshot ?a ?b ?c ?e ?f ?g] =>
    destruct (frames_take_screenshot a b c e f g) as (Hf & _) end.
  cbn [snd] in Hf. rewrite Hf. cbn [timers outside with_timers].
  repeat split.
  clear Hf Ht. revert n Hn.
  induction (timers (outside w)) as [| a l IH]; intros n Hn; simpl in *; [lia |].
  destruct n as [| n]; simpl; [reflexivity |].
  rewrite IH; [reflexivity | lia].
Qed.

Lemma firing_removes_only_that_timer_witness :
  timers (outside (snd (timer_fires 0 10 10 "20250203_120005" armed_session)))
  = [].
Proof.
  refine (proj1 (proj2 (firing_removes_only_that_timer 0 10 10
                          "20250203_120005" armed_session _))).
  vm_compute. lia.
Defined.
